(** * otelgrpcgw: the request-instrumentation middleware

    A shallow embedding of [handler.go], [config.go], [time_ctx.go] and
    [util.go] of github.com/crazyfrankie/otelgrpcgw, and the properties of
    the per-request cycle run by [serveHTTP].

    Conventions of the embedding.
    - Go's [int], [int64] and [time.Duration] are [Z]; [time.Duration] is
      kept inside the int64 range by the saturation the [time] package
      performs, [float64] is Rocq's primitive binary64 [float].
    - A [context.Context] is the chain of its [WithValue] bindings, the
      innermost first.
    - A field or variable the source compares with [nil] is an [option];
      the others hold a value.
    - The calls the middleware makes on its collaborators (filters, tracer,
      span, response writer, meter) are collected, in order, as a list of
      [Event]s; [defer] and [panic] are part of the monad [M]. *)

From Stdlib Require Import ZArith List String Bool Lia PrimFloat Uint63.
Import ListNotations.
Local Open Scope string_scope.
Local Open Scope list_scope.
Local Open Scope Z_scope.

(** ** Package [time] (standard library) *)

Module GoTime.

(** A [time.Time]: the instant in nanoseconds since January 1, year 1 UTC
    (the zero [Time] is instant 0) and the optional monotonic-clock
    reading that [time.Now] attaches. *)
Record Time : Type := mkTime { wall : Z; mono : option Z }.

Definition zero : Time := mkTime 0 None.

(** [t.IsZero()] looks at the instant only. *)
Definition IsZero (t : Time) : bool := wall t =? 0.

Definition minDuration : Z := - 2 ^ 63.
Definition maxDuration : Z := 2 ^ 63 - 1.

(** A [Duration] is an int64 count of nanoseconds; a difference out of its
    range is replaced by the nearest bound. *)
Definition saturate (d : Z) : Z :=
  if d <? minDuration then minDuration
  else if maxDuration <? d then maxDuration
  else d.

(** [t.Sub(u)]: on the monotonic readings when both have one, on the
    instants otherwise. *)
Definition Sub (t u : Time) : Z :=
  match mono t, mono u with
  | Some a, Some b => saturate (a - b)
  | _, _ => saturate (wall t - wall u)
  end.

Definition Millisecond : Z := 1000000.

(** [float64(d)] for an int64 [d]: the nearest binary64, ties to even. *)
Definition float64 (d : Z) : float :=
  if d =? minDuration then (- (of_uint63 (Uint63.of_Z (2 ^ 62)) * 2))%float
  else if d <? 0 then (- of_uint63 (Uint63.of_Z (- d)))%float
  else of_uint63 (Uint63.of_Z d).

End GoTime.

(** ** Package [attribute] (OpenTelemetry) *)

Module Attribute.

Inductive Value : Type :=
| Int64Value (n : Z)
| StringValue (s : string)
| BoolValue (b : bool).

Record KeyValue : Type := mkKeyValue { Key : string; Val : Value }.

(** [k.Int64(n)] *)
Definition Int64 (k : string) (n : Z) : KeyValue := mkKeyValue k (Int64Value n).

End Attribute.

(** ** Package [trace] (OpenTelemetry): the data the middleware looks at *)

Module Trace.

Inductive TracerProvider : Type :=
| noopTracerProvider
| sdkTracerProvider (id : nat).

Record SpanContext : Type := mkSpanContext {
  TraceID : Z;
  SpanID : Z;
  TraceFlags : Z;
  Remote : bool
}.

Definition IsValid (sc : SpanContext) : bool :=
  negb (TraceID sc =? 0) && negb (SpanID sc =? 0).

Definition IsRemote (sc : SpanContext) : bool := Remote sc.

(** What the middleware reads off a [trace.Span] value. *)
Record Span : Type := mkSpan {
  spanContext : SpanContext;
  tracerProvider : TracerProvider
}.

Definition noopSpan : Span :=
  mkSpan (mkSpanContext 0 0 0 false) noopTracerProvider.

(** The tracer [tp.Tracer(name, WithInstrumentationVersion(version))]. *)
Record Tracer : Type := mkTracer {
  provider : TracerProvider;
  instrumentationName : string;
  instrumentationVersion : string
}.

Inductive SpanKind : Type :=
| SpanKindUnspecified | SpanKindInternal | SpanKindServer
| SpanKindClient | SpanKindProducer | SpanKindConsumer.

Record Link : Type := mkLink { LinkSpanContext : SpanContext }.

Inductive SpanStartOption : Type :=
| WithAttributes (attrs : list Attribute.KeyValue)
| WithNewRoot
| WithLinks (links : list Link)
| WithTimestamp (t : GoTime.Time)
| WithSpanKind (k : SpanKind).

End Trace.

(** ** Package [codes] (OpenTelemetry) *)

Module Codes.

Inductive Code : Type := Unset | Error | Ok.

End Codes.

(** ** Package [context] (standard library) *)

Module GoContext.

(** The keys a chain can hold.  [startTimeKey] is this package's
    [var startTimeKey struct{}]; [currentSpanKey] is the [trace] package's;
    [labelerContextKey] is the labeler carrier's. *)
Inductive Key : Type :=
| startTimeKey
| currentSpanKey
| labelerContextKey
| otherKey (n : nat).

Definition key_eqb (a b : Key) : bool :=
  match a, b with
  | startTimeKey, startTimeKey => true
  | currentSpanKey, currentSpanKey => true
  | labelerContextKey, labelerContextKey => true
  | otherKey n, otherKey m => Nat.eqb n m
  | _, _ => false
  end.

(** The dynamic values ([any]) stored under those keys; a [*Labeler] is its
    address in the store of labelers. *)
Inductive any : Type :=
| anyTime (t : GoTime.Time)
| anySpan (s : Trace.Span)
| anyLabeler (l : nat)
| anyOther (z : Z).

Definition Context : Type := list (Key * any).

Definition Background : Context := [].

(** [context.WithValue(parent, key, val)] *)
Definition WithValue (parent : Context) (key : Key) (val : any) : Context :=
  (key, val) :: parent.

(** [ctx.Value(key)]: the innermost binding of [key], [nil] when none. *)
Fixpoint Value (ctx : Context) (key : Key) : option any :=
  match ctx with
  | [] => None
  | (k, v) :: parent => if key_eqb key k then Some v else Value parent key
  end.

End GoContext.

(** [trace.SpanFromContext] and [trace.SpanContextFromContext] *)
Definition SpanFromContext (ctx : GoContext.Context) : Trace.Span :=
  match GoContext.Value ctx GoContext.currentSpanKey with
  | Some (GoContext.anySpan s) => s
  | _ => Trace.noopSpan
  end.

Definition SpanContextFromContext (ctx : GoContext.Context) : Trace.SpanContext :=
  Trace.spanContext (SpanFromContext ctx).

(** ** [time_ctx.go] *)

(** [ContextWithStartTime] returns a context and puts [start] in it. *)
Definition ContextWithStartTime (parent : GoContext.Context) (start : GoTime.Time)
  : GoContext.Context :=
  GoContext.WithValue parent GoContext.startTimeKey (GoContext.anyTime start).

(** [StartTimeFromContext]: [t, _ := ctx.Value(startTimeKey).(time.Time)]. *)
Definition StartTimeFromContext (ctx : GoContext.Context) : GoTime.Time :=
  match GoContext.Value ctx GoContext.startTimeKey with
  | Some (GoContext.anyTime t) => t
  | _ => GoTime.zero
  end.

(** ** Package [net/http] (standard library) and [httpsnoop] *)

Module Http.

(** Go's [error] values, as far as the wrappers distinguish them. *)
Inductive error : Type :=
| EOF
| ioError (msg : string).

(** A request body: [nil], the [http.NoBody] sentinel, a stream of the
    transport, or this middleware's byte-counting wrapper around one. *)
Inductive ReadCloser : Type :=
| nilBody
| NoBody
| streamBody (id : nat)
| bodyWrapper (inner : ReadCloser).

Definition Header : Type := list (string * string).

Record Request : Type := mkRequest {
  Method : string;
  URL : string;
  header : Header;
  Body : ReadCloser;
  ctx : GoContext.Context
}.

(** [r.Context()] *)
Definition Context (r : Request) : GoContext.Context := ctx r.

(** [r.WithContext(ctx)]: a shallow copy of [r] carrying [ctx]. *)
Definition WithContext (r : Request) (c : GoContext.Context) : Request :=
  mkRequest (Method r) (URL r) (header r) (Body r) c.

(** [r.Body = b] *)
Definition setBody (r : Request) (b : ReadCloser) : Request :=
  mkRequest (Method r) (URL r) (header r) b (ctx r).

(** A response writer of the framework, or [httpsnoop.Wrap] of one, whose
    [Header], [Write], [WriteHeader] and [Flush] go to the cycle's
    [RespWriterWrapper]. *)
Inductive ResponseWriter : Type :=
| frameworkWriter (id : nat)
| snoopWrap (inner : ResponseWriter).

Definition StatusOK : Z := 200.

End Http.

(** ** Package [propagation] (OpenTelemetry) *)

Module Propagation.

(** The one method of a [TextMapPropagator] the middleware calls. *)
Record TextMapPropagator : Type := mkPropagator {
  Extract : GoContext.Context -> Http.Header -> GoContext.Context
}.

End Propagation.

(** ** Package [metric] (OpenTelemetry) *)

Module Metric.

Inductive MeterProvider : Type :=
| noopMeterProvider
| sdkMeterProvider (id : nat).

(** The meter [mp.Meter(name, WithInstrumentationVersion(version))]. *)
Record Meter : Type := mkMeter {
  provider : MeterProvider;
  instrumentationName : string;
  instrumentationVersion : string
}.

End Metric.

(** ** Package [internal/semconv]: the types [handler.go] builds *)

Module Semconv.

Record ResponseTelemetry : Type := mkResponseTelemetry {
  StatusCode : Z;
  ReadBytes : Z;
  ReadError : option Http.error;
  WriteBytes : Z;
  WriteError : option Http.error
}.

Record MetricAttributes : Type := mkMetricAttributes {
  Req : Http.Request;
  MetricStatusCode : Z;
  AdditionalAttributes : list Attribute.KeyValue
}.

Record MetricData : Type := mkMetricData {
  RequestSize : Z;
  ElapsedTime : float
}.

Record ServerMetricData : Type := mkServerMetricData {
  ServerName : string;
  ResponseSize : Z;
  Attributes : MetricAttributes;
  Data : MetricData
}.

(** The attribute extractors of an [HTTPServer]; their code is not part of
    the files embedded here, so a handler carries them as functions. *)
Record HTTPServer : Type := mkHTTPServer {
  RequestTraceAttrs : string -> Http.Request -> list Attribute.KeyValue;
  ResponseTraceAttrs : ResponseTelemetry -> list Attribute.KeyValue
}.

(** Modelled from the spec: [HTTPServer.Status], of internal/semconv, is
    not among the source files.  "codes >= 500 are errors; codes < 500 are
    not marked as span errors even if client-error range". *)
Definition Status (code : Z) : Codes.Code :=
  if 500 <=? code then Codes.Error else Codes.Unset.

End Semconv.

(** ** The calls a cycle makes on its collaborators *)

Definition PathParams : Type := list (string * string).

Inductive Event : Type :=
| EvFilter (i : nat) (r : Http.Request) (accepted : bool)
| EvStart (t : Trace.Tracer) (ctx : GoContext.Context) (name : string)
          (opts : list Trace.SpanStartOption)
| EvNewBodyWrapper (body : Http.ReadCloser)
| EvNewRespWriterWrapper (w : Http.ResponseWriter)
| EvSnoopWrap (w : Http.ResponseWriter)
| EvNext (w : Http.ResponseWriter) (r : Http.Request) (pathParams : PathParams)
| EvBodyRead (n : Z) (err : option Http.error)
| EvWriteHeader (code : Z)
| EvWrite (n : Z) (err : option Http.error)
| EvFlush
| EvAddEvent (s : Trace.Span) (name : string) (attrs : list Attribute.KeyValue)
| EvSetStatus (s : Trace.Span) (code : Codes.Code)
| EvSetAttributes (s : Trace.Span) (attrs : list Attribute.KeyValue)
| EvRecordMetrics (ctx : GoContext.Context) (md : Semconv.ServerMetricData)
| EvEnd (s : Trace.Span).

(** ** The world a cycle runs in, and the monad of its effects *)

(** The process-wide OpenTelemetry registry ([otel.GetTracerProvider],
    [otel.GetMeterProvider], [otel.GetTextMapPropagator]). *)
Record Globals : Type := mkGlobals {
  GetTracerProvider : Trace.TracerProvider;
  GetMeterProvider : Metric.MeterProvider;
  GetTextMapPropagator : Propagation.TextMapPropagator
}.

(** [clock] gives the successive readings of the system clock, [ticks] how
    many were taken; [labelers] is the store of the [*Labeler] bags. *)
Record World : Type := mkWorld {
  clock : nat -> GoTime.Time;
  ticks : nat;
  otel : Globals;
  labelers : list (list Attribute.KeyValue)
}.

Inductive Result (A : Type) : Type :=
| Normal (a : A)
| Panic (v : string).
Arguments Normal {A} a.
Arguments Panic {A} v.

Definition M (A : Type) : Type := World -> Result A * World * list Event.

Definition ret {A} (a : A) : M A := fun W => (Normal a, W, []).

Definition bind {A B} (c : M A) (k : A -> M B) : M B :=
  fun W =>
    match c W with
    | (Normal a, W1, t1) =>
        match k a W1 with
        | (r, W2, t2) => (r, W2, t1 ++ t2)
        end
    | (Panic v, W1, t1) => (Panic v, W1, t1)
    end.

Declare Scope go_scope.
Delimit Scope go_scope with go.
Notation "x <- c ;; k" := (bind c (fun x => k))
  (at level 61, c at next level, right associativity) : go_scope.
Notation "' pat <- c ;; k" := (bind c (fun x => match x with pat => k end))
  (at level 61, pat pattern, c at next level, right associativity) : go_scope.
Notation "c ;; k" := (bind c (fun _ => k))
  (at level 61, right associativity) : go_scope.
Local Open Scope go_scope.

Definition emit (e : Event) : M unit := fun W => (Normal tt, W, [e]).

Definition panic {A} (v : string) : M A := fun W => (Panic v, W, []).

(** [defer d; body]: [d] runs when [body] is left, by return or by panic;
    the panic, if any, goes on afterwards. *)
Definition defer {A} (d : M unit) (body : M A) : M A :=
  fun W =>
    match body W with
    | (r, W1, t1) =>
        match d W1 with
        | (Normal _, W2, t2) => (r, W2, t1 ++ t2)
        | (Panic v, W2, t2) => (Panic v, W2, t1 ++ t2)
        end
    end.

(** [time.Now()] *)
Definition Now : M GoTime.Time :=
  fun W => (Normal (clock W (ticks W)),
            mkWorld (clock W) (S (ticks W)) (otel W) (labelers W), []).

(** [time.Since(t)] *)
Definition Since (t : GoTime.Time) : M Z :=
  now <- Now ;; ret (GoTime.Sub now t).

Definition getGlobals : M Globals := fun W => (Normal (otel W), W, []).

Definition run {A} (c : M A) (W : World) : Result A * World * list Event := c W.
Definition result {A} (x : Result A * World * list Event) : Result A := fst (fst x).
Definition world {A} (x : Result A * World * list Event) : World := snd (fst x).
Definition trace {A} (x : Result A * World * list Event) : list Event := snd x.

(** ** Package [internal/request]: the byte-counting wrappers *)

Module InternalRequest.

(** Modelled from the spec: [BodyWrapper], of internal/request, is not
    among the source files.  Section 4.1: a read "delegates to the
    underlying stream, and on success increments a running byte count by
    the number of bytes returned; on failure, if the error is not end of
    stream, records it as the wrapper's terminal error (first occurrence
    only)"; section 4.4: the read callback receives "the cumulative byte
    count at that point". *)
Record BodyWrapper : Type := mkBodyWrapper {
  ReadCloser : Http.ReadCloser;
  OnRead : Z -> M unit;
  read : Z;
  readErr : option Http.error
}.

(** Modelled from the spec: [request.NewBodyWrapper], a wrapper that has
    read nothing yet. *)
Definition NewBodyWrapper (body : Http.ReadCloser) (onRead : Z -> M unit)
  : M BodyWrapper :=
  emit (EvNewBodyWrapper body) ;;
  ret (mkBodyWrapper body onRead 0 None).

(** Modelled from the spec: the error a wrapper keeps, "first occurrence
    only", end of stream never. *)
Definition firstError (old new : option Http.error) : option Http.error :=
  match old, new with
  | Some e, _ => Some e
  | None, Some Http.EOF => None
  | None, other => other
  end.

(** Modelled from the spec: [bw.Read(p)] when the underlying stream
    answers [(n, e)]. *)
Definition Read (bw : BodyWrapper) (n : Z) (e : option Http.error) : M BodyWrapper :=
  emit (EvBodyRead n e) ;;
  match e with
  | None =>
      let bw' := mkBodyWrapper (ReadCloser bw) (OnRead bw) (read bw + n) (readErr bw) in
      OnRead bw (read bw') ;;
      ret bw'
  | Some _ =>
      ret (mkBodyWrapper (ReadCloser bw) (OnRead bw) (read bw) (firstError (readErr bw) e))
  end.

(** Modelled from the spec: [bw.BytesRead()] and [bw.Error()], "the
    current count" and "the captured terminal error or none". *)
Definition BytesRead (bw : BodyWrapper) : Z := read bw.
Definition BodyError (bw : BodyWrapper) : option Http.error := readErr bw.

(** Modelled from the spec: [RespWriterWrapper], of internal/request, is
    not among the source files.  Section 4.2: [writeHeader] "records the
    status code exactly once, the first call wins"; [write], "if no status
    was explicitly set yet, implicitly applies the default status, then
    delegates the write; on success, increments written-byte count by
    bytes actually written; on failure, records the first
    non-end-of-stream error"; [flush] "delegates, no byte/error
    accounting". *)
Record RespWriterWrapper : Type := mkRespWriterWrapper {
  ResponseWriter : Http.ResponseWriter;
  OnWrite : Z -> M unit;
  statusCode : Z;
  wroteHeader : bool;
  written : Z;
  writeErr : option Http.error
}.

(** Modelled from the spec: [request.NewRespWriterWrapper]; the status
    code starts at "the framework's implicit default". *)
Definition NewRespWriterWrapper (w : Http.ResponseWriter) (onWrite : Z -> M unit)
  : M RespWriterWrapper :=
  emit (EvNewRespWriterWrapper w) ;;
  ret (mkRespWriterWrapper w onWrite Http.StatusOK false 0 None).

(** Modelled from the spec: [rww.WriteHeader(code)]; the call always goes
    on to the underlying writer, whose own guard is trusted. *)
Definition WriteHeader (rww : RespWriterWrapper) (code : Z) : M RespWriterWrapper :=
  emit (EvWriteHeader code) ;;
  ret (if wroteHeader rww then rww
       else mkRespWriterWrapper (ResponseWriter rww) (OnWrite rww) code true
                                (written rww) (writeErr rww)).

(** Modelled from the spec: [rww.Write(p)] when the underlying writer
    answers [(n, e)]. *)
Definition Write (rww : RespWriterWrapper) (n : Z) (e : option Http.error)
  : M RespWriterWrapper :=
  rww <- (if wroteHeader rww then ret rww else WriteHeader rww Http.StatusOK) ;;
  emit (EvWrite n e) ;;
  match e with
  | None =>
      let rww' := mkRespWriterWrapper (ResponseWriter rww) (OnWrite rww) (statusCode rww)
                                      (wroteHeader rww) (written rww + n) (writeErr rww) in
      OnWrite rww (written rww') ;;
      ret rww'
  | Some _ =>
      ret (mkRespWriterWrapper (ResponseWriter rww) (OnWrite rww) (statusCode rww)
                               (wroteHeader rww) (written rww)
                               (firstError (writeErr rww) e))
  end.

(** Modelled from the spec: [rww.Flush()]. *)
Definition Flush (rww : RespWriterWrapper) : M RespWriterWrapper :=
  emit EvFlush ;; ret rww.

(** Modelled from the spec: [rww.StatusCode()], [rww.BytesWritten()] and
    [rww.Error()], "read-only snapshots". *)
Definition StatusCode (rww : RespWriterWrapper) : Z := statusCode rww.
Definition BytesWritten (rww : RespWriterWrapper) : Z := written rww.
Definition WriterError (rww : RespWriterWrapper) : option Http.error := writeErr rww.

End InternalRequest.

(** ** The labeler carrier *)

(** Modelled from the spec: the [Labeler] of labeler.go, which is not
    among the source files, "a mutable, append-only bag of extra metric
    attributes, shared by reference".  A [*Labeler] is an address in
    [labelers]. *)
Definition Labeler : Type := nat.

(** The store with [kvs] appended to the bag at address [l]. *)
Fixpoint appendAt (l : nat) (kvs : list Attribute.KeyValue)
  (store : list (list Attribute.KeyValue)) : list (list Attribute.KeyValue) :=
  match store, l with
  | [], _ => []
  | bag :: rest, O => (bag ++ kvs) :: rest
  | bag :: rest, S l' => bag :: appendAt l' kvs rest
  end.

(** Modelled from the spec: [l.Add(kvs...)], an append to the bag. *)
Definition LabelerAdd (l : Labeler) (kvs : list Attribute.KeyValue) : M unit :=
  fun W => (Normal tt,
            mkWorld (clock W) (ticks W) (otel W) (appendAt l kvs (labelers W)), []).

(** Modelled from the spec: [l.Get()], a copy of the entries, in append
    order. *)
Definition LabelerGet (l : Labeler) : M (list Attribute.KeyValue) :=
  fun W => (Normal (nth l (labelers W) []), W, []).

(** Modelled from the spec: [LabelerFromContext] and [ContextWithLabeler],
    of labeler.go, are not among the source files.  Section 4.6: "reading
    returns the existing bag if present in context, otherwise a fresh
    empty bag". *)
Definition LabelerFromContext (ctx : GoContext.Context) : M (Labeler * bool) :=
  match GoContext.Value ctx GoContext.labelerContextKey with
  | Some (GoContext.anyLabeler l) => ret (l, true)
  | _ => fun W => (Normal (List.length (labelers W), false),
                   mkWorld (clock W) (ticks W) (otel W) (labelers W ++ [[]]), [])
  end.

(** Modelled from the spec: [ContextWithLabeler], the context binding the
    bag under the carrier's key. *)
Definition ContextWithLabeler (ctx : GoContext.Context) (l : Labeler)
  : GoContext.Context :=
  GoContext.WithValue ctx GoContext.labelerContextKey (GoContext.anyLabeler l).

(** ** Downstream handlers *)

(** What a downstream handler does with what it is handed: reads of the
    request body, calls on the response writer, additions to the labeler of
    its request's context; each read and write with the answer of the
    underlying stream or writer. *)
Inductive HandlerOp : Type :=
| OpRead (n : Z) (e : option Http.error)
| OpWriteHeader (code : Z)
| OpWrite (n : Z) (e : option Http.error)
| OpFlush
| OpLabelerAdd (kvs : list Attribute.KeyValue).

Inductive Completion : Type :=
| Returns
| Panics (v : string).

(** A [runtime.HandlerFunc] handed to the middleware: from the writer, the
    request and the path parameters it receives, the calls it makes, in
    order, and how it ends. *)
Definition HandlerFunc : Type :=
  Http.ResponseWriter -> Http.Request -> PathParams -> list HandlerOp * Completion.

Definition Wrappers : Type :=
  (InternalRequest.BodyWrapper * InternalRequest.RespWriterWrapper)%type.

(** One call of the handler, on the request [r] and the writer whose hooks
    lead to [rww]; a read reaches [bw] when [r.Body] is the wrapper. *)
Definition runOp (r : Http.Request) (op : HandlerOp) (st : Wrappers) : M Wrappers :=
  let '(bw, rww) := st in
  match op with
  | OpRead n e =>
      match Http.Body r with
      | Http.bodyWrapper _ => bw <- InternalRequest.Read bw n e ;; ret (bw, rww)
      | Http.nilBody => panic "invalid memory address or nil pointer dereference"
      | _ => emit (EvBodyRead n e) ;; ret (bw, rww)
      end
  | OpWriteHeader code => rww <- InternalRequest.WriteHeader rww code ;; ret (bw, rww)
  | OpWrite n e => rww <- InternalRequest.Write rww n e ;; ret (bw, rww)
  | OpFlush => rww <- InternalRequest.Flush rww ;; ret (bw, rww)
  | OpLabelerAdd kvs =>
      ' (l, _) <- LabelerFromContext (Http.Context r) ;;
      LabelerAdd l kvs ;;
      ret (bw, rww)
  end.

Fixpoint runOps (r : Http.Request) (ops : list HandlerOp) (st : Wrappers) : M Wrappers :=
  match ops with
  | [] => ret st
  | op :: ops' => st <- runOp r op st ;; runOps r ops' st
  end.

(** [next(w, r, pathParams)] *)
Definition call (next : HandlerFunc) (w : Http.ResponseWriter) (r : Http.Request)
  (pathParams : PathParams) (st : Wrappers) : M Wrappers :=
  emit (EvNext w r pathParams) ;;
  let '(ops, fin) := next w r pathParams in
  st <- runOps r ops st ;;
  match fin with
  | Returns => ret st
  | Panics v => panic v
  end.

(** ** Package [otelgrpcgw] *)

(** Attribute keys that can be added to a span. *)
Definition ReadBytesKey : string := "http.read_bytes".
Definition ReadErrorKey : string := "http.read_error".
Definition WroteBytesKey : string := "http.wrote_bytes".
Definition WriteErrorKey : string := "http.write_error".

(** [Filter] is a predicate used to determine whether a given request
    should be traced. *)
Definition Filter : Type := Http.Request -> bool.

(** [ScopeName] is the instrumentation scope name. *)
Definition ScopeName : string := "github.com/crazyfrankie/otelgrpcgw".

Record handler : Type := mkHandler {
  operation : string;
  server : string;
  tracer : option Trace.Tracer;
  propagators : Propagation.TextMapPropagator;
  spanStartOptions : list Trace.SpanStartOption;
  readEvent : bool;
  writeEvent : bool;
  filters : list Filter;
  spanNameFormatter : string -> Http.Request -> string;
  publicEndpoint : bool;
  publicEndpointFn : option (Http.Request -> bool);
  metricAttributesFn : option (Http.Request -> list Attribute.KeyValue);
  semconv : Semconv.HTTPServer
}.

Definition defaultHandlerFormatter (operation : string) (_ : Http.Request) : string :=
  operation.

(** *** [config.go] *)

Record config : Type := mkConfig {
  ServerName : string;
  Tracer : option Trace.Tracer;
  Meter : option Metric.Meter;
  Propagators : Propagation.TextMapPropagator;
  SpanStartOptions : list Trace.SpanStartOption;
  PublicEndpoint : bool;
  PublicEndpointFn : option (Http.Request -> bool);
  ReadEvent : bool;
  WriteEvent : bool;
  Filters : list Filter;
  MetricAttributesFn : option (Http.Request -> list Attribute.KeyValue);
  ClientTrace : option (GoContext.Context -> nat);
  SpanNameFormatter : string -> Http.Request -> string;
  TracerProvider : option Trace.TracerProvider;
  MeterProvider : Metric.MeterProvider
}.

Definition Option : Type := config -> config.

(** Go's zero values of the fields the source never compares with [nil];
    [NewMiddleware] overwrites each of them before a request is served. *)
Definition nilSpanNameFormatter : string -> Http.Request -> string := fun _ _ => "".
Definition nilPropagator : Propagation.TextMapPropagator :=
  Propagation.mkPropagator (fun ctx _ => ctx).
Definition zeroHTTPServer : Semconv.HTTPServer :=
  Semconv.mkHTTPServer (fun _ _ => []) (fun _ => []).

(** [WithTracerProvider] specifies a tracer provider to use for creating a
    tracer. *)
Definition WithTracerProvider (tp : option Trace.TracerProvider) : Option :=
  fun c => mkConfig (ServerName c) (Tracer c) (Meter c) (Propagators c)
    (SpanStartOptions c) (PublicEndpoint c) (PublicEndpointFn c) (ReadEvent c)
    (WriteEvent c) (Filters c) (MetricAttributesFn c) (ClientTrace c)
    (SpanNameFormatter c) tp (MeterProvider c).

(** [WithMeterProvider] specifies a meter provider to use for creating a
    meter. *)
Definition WithMeterProvider (mp : Metric.MeterProvider) : Option :=
  fun c => mkConfig (ServerName c) (Tracer c) (Meter c) (Propagators c)
    (SpanStartOptions c) (PublicEndpoint c) (PublicEndpointFn c) (ReadEvent c)
    (WriteEvent c) (Filters c) (MetricAttributesFn c) (ClientTrace c)
    (SpanNameFormatter c) (TracerProvider c) mp.

(** [WithPublicEndpoint] sets [PublicEndpoint] to true. *)
Definition WithPublicEndpoint : Option :=
  fun c => mkConfig (ServerName c) (Tracer c) (Meter c) (Propagators c)
    (SpanStartOptions c) true (PublicEndpointFn c) (ReadEvent c)
    (WriteEvent c) (Filters c) (MetricAttributesFn c) (ClientTrace c)
    (SpanNameFormatter c) (TracerProvider c) (MeterProvider c).

(** [WithPublicEndpointFn] sets the value of [PublicEndpointFn]. *)
Definition WithPublicEndpointFn (fn : option (Http.Request -> bool)) : Option :=
  fun c => mkConfig (ServerName c) (Tracer c) (Meter c) (Propagators c)
    (SpanStartOptions c) (PublicEndpoint c) fn (ReadEvent c)
    (WriteEvent c) (Filters c) (MetricAttributesFn c) (ClientTrace c)
    (SpanNameFormatter c) (TracerProvider c) (MeterProvider c).

(** [WithPropagators] configures specific propagators. *)
Definition WithPropagators (ps : Propagation.TextMapPropagator) : Option :=
  fun c => mkConfig (ServerName c) (Tracer c) (Meter c) ps
    (SpanStartOptions c) (PublicEndpoint c) (PublicEndpointFn c) (ReadEvent c)
    (WriteEvent c) (Filters c) (MetricAttributesFn c) (ClientTrace c)
    (SpanNameFormatter c) (TracerProvider c) (MeterProvider c).

(** [WithSpanOptions] configures an additional set of
    [trace.SpanStartOption]. *)
Definition WithSpanOptions (opts : list Trace.SpanStartOption) : Option :=
  fun c => mkConfig (ServerName c) (Tracer c) (Meter c) (Propagators c)
    (SpanStartOptions c ++ opts) (PublicEndpoint c) (PublicEndpointFn c) (ReadEvent c)
    (WriteEvent c) (Filters c) (MetricAttributesFn c) (ClientTrace c)
    (SpanNameFormatter c) (TracerProvider c) (MeterProvider c).

(** [WithFilter] adds a filter to the list of filters used by the
    handler. *)
Definition WithFilter (f : Filter) : Option :=
  fun c => mkConfig (ServerName c) (Tracer c) (Meter c) (Propagators c)
    (SpanStartOptions c) (PublicEndpoint c) (PublicEndpointFn c) (ReadEvent c)
    (WriteEvent c) (Filters c ++ [f]) (MetricAttributesFn c) (ClientTrace c)
    (SpanNameFormatter c) (TracerProvider c) (MeterProvider c).

(** [WithSpanNameFormatter] takes a function that will be called on every
    request, and the returned string will become the span name. *)
Definition WithSpanNameFormatter (fn : string -> Http.Request -> string) : Option :=
  fun c => mkConfig (ServerName c) (Tracer c) (Meter c) (Propagators c)
    (SpanStartOptions c) (PublicEndpoint c) (PublicEndpointFn c) (ReadEvent c)
    (WriteEvent c) (Filters c) (MetricAttributesFn c) (ClientTrace c)
    fn (TracerProvider c) (MeterProvider c).

(** [WithClientTrace] takes a function that returns a client trace
    instance. *)
Definition WithClientTrace (fn : option (GoContext.Context -> nat)) : Option :=
  fun c => mkConfig (ServerName c) (Tracer c) (Meter c) (Propagators c)
    (SpanStartOptions c) (PublicEndpoint c) (PublicEndpointFn c) (ReadEvent c)
    (WriteEvent c) (Filters c) (MetricAttributesFn c) fn
    (SpanNameFormatter c) (TracerProvider c) (MeterProvider c).

(** [WithServerName] sets the name of the (virtual) server handling
    requests. *)
Definition WithServerName (server : string) : Option :=
  fun c => mkConfig server (Tracer c) (Meter c) (Propagators c)
    (SpanStartOptions c) (PublicEndpoint c) (PublicEndpointFn c) (ReadEvent c)
    (WriteEvent c) (Filters c) (MetricAttributesFn c) (ClientTrace c)
    (SpanNameFormatter c) (TracerProvider c) (MeterProvider c).

(** [WithMetricAttributesFn] sets a function that maps an HTTP request to
    a slice of [attribute.KeyValue]. *)
Definition WithMetricAttributesFn
  (fn : option (Http.Request -> list Attribute.KeyValue)) : Option :=
  fun c => mkConfig (ServerName c) (Tracer c) (Meter c) (Propagators c)
    (SpanStartOptions c) (PublicEndpoint c) (PublicEndpointFn c) (ReadEvent c)
    (WriteEvent c) (Filters c) fn (ClientTrace c)
    (SpanNameFormatter c) (TracerProvider c) (MeterProvider c).

Definition setTracer (c : config) (t : option Trace.Tracer) : config :=
  mkConfig (ServerName c) t (Meter c) (Propagators c)
    (SpanStartOptions c) (PublicEndpoint c) (PublicEndpointFn c) (ReadEvent c)
    (WriteEvent c) (Filters c) (MetricAttributesFn c) (ClientTrace c)
    (SpanNameFormatter c) (TracerProvider c) (MeterProvider c).

Definition setMeter (c : config) (m : option Metric.Meter) : config :=
  mkConfig (ServerName c) (Tracer c) m (Propagators c)
    (SpanStartOptions c) (PublicEndpoint c) (PublicEndpointFn c) (ReadEvent c)
    (WriteEvent c) (Filters c) (MetricAttributesFn c) (ClientTrace c)
    (SpanNameFormatter c) (TracerProvider c) (MeterProvider c).

(** [for _, opt := range opts { opt(c) }] *)
Definition applyOptions (opts : list Option) (c : config) : config :=
  fold_left (fun c opt => opt c) opts c.

Section Package.

(** [Version()], of version.go, and the two calls into code outside the
    embedded files: [tracer.Start] of the tracing SDK and
    [semconv.NewHTTPServer]. *)
Variable Version : string.
Variable tracerStart :
  Trace.Tracer -> GoContext.Context -> string -> list Trace.SpanStartOption ->
  GoContext.Context * Trace.Span.
Variable NewHTTPServer : option Metric.Meter -> Semconv.HTTPServer.

(** *** [util.go] *)

Definition newTracer (tp : Trace.TracerProvider) : Trace.Tracer :=
  Trace.mkTracer tp ScopeName Version.

Definition newMeter (mp : Metric.MeterProvider) : Metric.Meter :=
  Metric.mkMeter mp ScopeName Version.

Definition newConfig (G : Globals) (opts : list Option) : config :=
  let c := mkConfig "" None None (GetTextMapPropagator G) [] false None false false
             [] None None nilSpanNameFormatter None (GetMeterProvider G) in
  let c := applyOptions opts c in
  let c := match TracerProvider c with
           | Some tp => setTracer c (Some (newTracer tp))
           | None => c
           end in
  setMeter c (Some (newMeter (MeterProvider c))).

(** *** [handler.go] *)

(** [configure] executes the configuration from [config] into the
    handler. *)
Definition configure (m : handler) (c : config) : handler :=
  mkHandler (operation m) (ServerName c) (Tracer c) (Propagators c)
    (SpanStartOptions c) (ReadEvent c) (WriteEvent c) (Filters c)
    (SpanNameFormatter c) (PublicEndpoint c) (PublicEndpointFn c)
    (MetricAttributesFn c) (NewHTTPServer (Meter c)).

Definition metricAttributesFromRequest (m : handler) (r : Http.Request)
  : list Attribute.KeyValue :=
  match metricAttributesFn m with
  | Some fn => fn r
  | None => []
  end.

(** The filter loop of [serveHTTP]: [false] when a filter made it return. *)
Fixpoint runFilters (fs : list Filter) (i : nat) (r : Http.Request) : M bool :=
  match fs with
  | [] => ret true
  | f :: fs' =>
      let accepted := f r in
      emit (EvFilter i r accepted) ;;
      if negb accepted then ret false else runFilters fs' (S i) r
  end.

(** [tracer.Start(ctx, name, opts...)] *)
Definition Start (t : Trace.Tracer) (ctx : GoContext.Context) (name : string)
  (opts : list Trace.SpanStartOption) : M (GoContext.Context * Trace.Span) :=
  emit (EvStart t ctx name opts) ;;
  ret (tracerStart t ctx name opts).

(** [serveHTTP] sets up tracing and calls the given next
    [runtime.HandlerFunc] with the span context injected into the request
    context. *)
Definition serveHTTP (m : handler) (w : Http.ResponseWriter) (r : Http.Request)
  (next : HandlerFunc) (pathParams : PathParams) : M unit :=
  reqStartTime <- Now ;;
  (* filters *)
  accepted <- runFilters (filters m) 0 r ;;
  if negb accepted then ret tt else
  (* extract ctx *)
  let ctx := Propagation.Extract (propagators m) (Http.Context r) (Http.header r) in
  let opts := [Trace.WithAttributes (Semconv.RequestTraceAttrs (semconv m) (server m) r)] in
  let opts :=
    if publicEndpoint m
       || match publicEndpointFn m with
          | Some fn => fn (Http.WithContext r ctx)
          | None => false
          end
    then
      let opts := opts ++ [Trace.WithNewRoot] in
      let s := SpanContextFromContext ctx in
      if Trace.IsValid s && Trace.IsRemote s
      then opts ++ [Trace.WithLinks [Trace.mkLink s]]
      else opts
    else opts in
  tracer <- match tracer m with
            | Some t => ret t
            | None =>
                let span := SpanFromContext (Http.Context r) in
                if Trace.IsValid (Trace.spanContext span)
                then ret (newTracer (Trace.tracerProvider span))
                else G <- getGlobals ;; ret (newTracer (GetTracerProvider G))
            end ;;
  let startTime := StartTimeFromContext ctx in
  let '(opts, reqStartTime) :=
    if negb (GoTime.IsZero startTime)
    then (opts ++ [Trace.WithTimestamp startTime], startTime)
    else (opts, reqStartTime) in
  ' (ctx, span) <- Start tracer ctx (spanNameFormatter m (operation m) r) opts ;;
  defer (emit (EvEnd span)) (
    let readRecordFunc : Z -> M unit :=
      if readEvent m
      then fun n => emit (EvAddEvent span "read" [Attribute.Int64 ReadBytesKey n])
      else fun _ => ret tt in
    bw <- InternalRequest.NewBodyWrapper (Http.Body r) readRecordFunc ;;
    let r :=
      match Http.Body r with
      | Http.nilBody | Http.NoBody => r
      | _ => Http.setBody r (Http.bodyWrapper (Http.Body r))
      end in
    let writeRecordFunc : Z -> M unit :=
      if writeEvent m
      then fun n => emit (EvAddEvent span "write" [Attribute.Int64 WroteBytesKey n])
      else fun _ => ret tt in
    rww <- InternalRequest.NewRespWriterWrapper w writeRecordFunc ;;
    (* wrap http.ResponseWriter *)
    emit (EvSnoopWrap w) ;;
    let w := Http.snoopWrap w in
    ' (labeler, found) <- LabelerFromContext ctx ;;
    let ctx := if negb found then ContextWithLabeler ctx labeler else ctx in
    ' (bw, rww) <- call next w (Http.WithContext r ctx) pathParams (bw, rww) ;;
    (* collect metrics *)
    let statusCode := InternalRequest.StatusCode rww in
    let bytesWritten := InternalRequest.BytesWritten rww in
    emit (EvSetStatus span (Semconv.Status statusCode)) ;;
    emit (EvSetAttributes span
            (Semconv.ResponseTraceAttrs (semconv m)
               (Semconv.mkResponseTelemetry statusCode
                  (InternalRequest.BytesRead bw) (InternalRequest.BodyError bw)
                  bytesWritten (InternalRequest.WriterError rww)))) ;;
    since <- Since reqStartTime ;;
    let elapsedTime := (GoTime.float64 since / GoTime.float64 GoTime.Millisecond)%float in
    labels <- LabelerGet labeler ;;
    let metricAttributes :=
      Semconv.mkMetricAttributes r statusCode
        (labels ++ metricAttributesFromRequest m r) in
    emit (EvRecordMetrics ctx
            (Semconv.mkServerMetricData (server m) bytesWritten metricAttributes
               (Semconv.mkMetricData (InternalRequest.BytesRead bw) elapsedTime)))).

(** The handler [h] that [NewMiddleware] builds and closes over. *)
Definition middlewareHandler (G : Globals) (operation : string) (opts : list Option)
  : handler :=
  let h := mkHandler operation "" None nilPropagator [] false false []
             nilSpanNameFormatter false None None zeroHTTPServer in
  let defaultOpts :=
    [ WithSpanOptions [Trace.WithSpanKind Trace.SpanKindServer];
      WithSpanNameFormatter defaultHandlerFormatter ] in
  let cfg := newConfig G (defaultOpts ++ opts) in
  configure h cfg.

Definition NewMiddleware (G : Globals) (operation : string) (opts : list Option)
  : HandlerFunc -> Http.ResponseWriter -> Http.Request -> PathParams -> M unit :=
  let h := middlewareHandler G operation opts in
  fun next w r pathParams => serveHTTP h w r next pathParams.

Definition NewHandler (G : Globals) (handler : HandlerFunc) (operation : string)
  (opts : list Option) : Http.ResponseWriter -> Http.Request -> PathParams -> M unit :=
  NewMiddleware G operation opts handler.

End Package.

(** ** A concrete setting, for running the model *)

Module Example.

Definition version : string := "0.1.0".

(** An SDK whose [Start] puts the new span in the context it returns. *)
Definition sdkStart (t : Trace.Tracer) (ctx : GoContext.Context) (name : string)
  (opts : list Trace.SpanStartOption) : GoContext.Context * Trace.Span :=
  let s := Trace.mkSpan (Trace.mkSpanContext 7 9 1 false) (Trace.provider t) in
  (GoContext.WithValue ctx GoContext.currentSpanKey (GoContext.anySpan s), s).

Definition httpServer (_ : option Metric.Meter) : Semconv.HTTPServer :=
  Semconv.mkHTTPServer
    (fun server r =>
       [Attribute.mkKeyValue "http.request.method" (Attribute.StringValue (Http.Method r))])
    (fun rt =>
       [Attribute.Int64 "http.response.status_code" (Semconv.StatusCode rt)]).

Definition remote : Trace.SpanContext := Trace.mkSpanContext 21 22 1 true.

(** A propagator that finds [remote] in the headers of every request. *)
Definition propagator : Propagation.TextMapPropagator :=
  Propagation.mkPropagator
    (fun ctx _ =>
       GoContext.WithValue ctx GoContext.currentSpanKey
         (GoContext.anySpan (Trace.mkSpan remote Trace.noopTracerProvider))).

Definition globals : Globals :=
  mkGlobals (Trace.sdkTracerProvider 0) (Metric.sdkMeterProvider 0) propagator.

(** The clock reads 1000 ms at entry and 1250 ms afterwards. *)
Definition world0 : World :=
  mkWorld (fun n => match n with
                    | O => GoTime.mkTime 1000000000 (Some 500000000)
                    | _ => GoTime.mkTime 1250000000 (Some 750000000)
                    end)
          0 globals [].

Definition request : Http.Request :=
  Http.mkRequest "GET" "/v1/hello" [] (Http.streamBody 0) GoContext.Background.

Definition label (k : string) (n : Z) : Attribute.KeyValue := Attribute.Int64 k n.

Definition okHandler : HandlerFunc :=
  fun _ _ _ => ([OpLabelerAdd [label "a" 1]; OpRead 10 None; OpWriteHeader 503;
                 OpWrite 5 None; OpLabelerAdd [label "a" 2]], Returns).

Definition panicHandler : HandlerFunc :=
  fun _ _ _ => ([OpWrite 5 None], Panics "boom").

Definition plain : handler :=
  middlewareHandler version httpServer globals "/"
    [WithMetricAttributesFn (Some (fun _ => [label "a" 3; label "b" 4]))].

Definition public : handler :=
  middlewareHandler version httpServer globals "/" [WithPublicEndpoint].

Definition filtered : handler :=
  middlewareHandler version httpServer globals "/"
    [WithFilter (fun _ => true); WithFilter (fun _ => false); WithFilter (fun _ => true)].

(** A request whose context carries the start time 900 ms. *)
Definition startTime : GoTime.Time := GoTime.mkTime 900000000 None.

Definition timedRequest : Http.Request :=
  Http.mkRequest "GET" "/v1/hello" [] (Http.streamBody 0)
    (ContextWithStartTime GoContext.Background startTime).

Definition serve (m : handler) (r : Http.Request) (next : HandlerFunc) :=
  run (serveHTTP version sdkStart m (Http.frameworkWriter 0) r next []) world0.

End Example.

(** * Notions for stating the properties *)

(** ** Reading a trace *)

(** The [tracer.Start] calls of a trace, the [span.End] calls, the
    [RecordMetrics] calls, the [span.SetStatus] calls and the calls of the
    downstream handler. *)
Fixpoint starts (tr : list Event)
  : list (Trace.Tracer * GoContext.Context * string * list Trace.SpanStartOption) :=
  match tr with
  | [] => []
  | EvStart t ctx name opts :: tr' => (t, ctx, name, opts) :: starts tr'
  | _ :: tr' => starts tr'
  end.

Fixpoint ends (tr : list Event) : list Trace.Span :=
  match tr with
  | [] => []
  | EvEnd s :: tr' => s :: ends tr'
  | _ :: tr' => ends tr'
  end.

Fixpoint recorded (tr : list Event) : list (GoContext.Context * Semconv.ServerMetricData) :=
  match tr with
  | [] => []
  | EvRecordMetrics ctx md :: tr' => (ctx, md) :: recorded tr'
  | _ :: tr' => recorded tr'
  end.

Fixpoint statuses (tr : list Event) : list (Trace.Span * Codes.Code) :=
  match tr with
  | [] => []
  | EvSetStatus s c :: tr' => (s, c) :: statuses tr'
  | _ :: tr' => statuses tr'
  end.

Fixpoint nexts (tr : list Event) : list (Http.ResponseWriter * Http.Request * PathParams) :=
  match tr with
  | [] => []
  | EvNext w r pp :: tr' => (w, r, pp) :: nexts tr'
  | _ :: tr' => nexts tr'
  end.

(** The events a downstream handler causes: traffic on the body and the
    writer, and the read and write events on the span. *)
Definition handlerEvent (e : Event) : bool :=
  match e with
  | EvBodyRead _ _ | EvWriteHeader _ | EvWrite _ _ | EvFlush | EvAddEvent _ _ _ => true
  | _ => false
  end.

(** The events of the filter loop. *)
Definition filterEvent (e : Event) : bool :=
  match e with
  | EvFilter _ _ _ => true
  | _ => false
  end.

(** What a [SpanStartOption] list asks of the SDK. *)
Definition newRoot (opts : list Trace.SpanStartOption) : bool :=
  existsb (fun o => match o with Trace.WithNewRoot => true | _ => false end) opts.

Definition links (opts : list Trace.SpanStartOption) : list Trace.Link :=
  flat_map (fun o => match o with Trace.WithLinks ls => ls | _ => [] end) opts.

Definition timestamp (opts : list Trace.SpanStartOption) : option GoTime.Time :=
  fold_left (fun acc o => match o with Trace.WithTimestamp t => Some t | _ => acc end)
            opts None.

Definition spanKinds (opts : list Trace.SpanStartOption) : list Trace.SpanKind :=
  flat_map (fun o => match o with Trace.WithSpanKind k => [k] | _ => [] end) opts.

(** The attributes a handler adds to the labeler of its request, in order. *)
Definition addedLabels (ops : list HandlerOp) : list Attribute.KeyValue :=
  flat_map (fun op => match op with OpLabelerAdd kvs => kvs | _ => [] end) ops.

(** [accepts m r]: every registered filter returns true on [r]. *)
Definition accepts (m : handler) (r : Http.Request) : bool :=
  forallb (fun f => f r) (filters m).

(** The filter calls of a cycle: in registration order, up to and
    including the first that returns false. *)
Fixpoint filterTrace (fs : list Filter) (i : nat) (r : Http.Request) : list Event :=
  match fs with
  | [] => []
  | f :: fs' => EvFilter i r (f r) :: (if f r then filterTrace fs' (S i) r else [])
  end.

(** The context [serveHTTP] extracts, and its trust-boundary decision. *)
Definition extracted (m : handler) (r : Http.Request) : GoContext.Context :=
  Propagation.Extract (propagators m) (Http.Context r) (Http.header r).

Definition isPublic (m : handler) (r : Http.Request) : bool :=
  publicEndpoint m
  || match publicEndpointFn m with
     | Some fn => fn (Http.WithContext r (extracted m r))
     | None => false
     end.

(** The request as [serveHTTP] leaves it: its body replaced by the wrapper
    unless it is [nil] or [http.NoBody]. *)
Definition wrapped (r : Http.Request) : Http.Request :=
  match Http.Body r with
  | Http.nilBody | Http.NoBody => r
  | _ => Http.setBody r (Http.bodyWrapper (Http.Body r))
  end.

(** A handler with other span-start options. *)
Definition withSpanStartOptions (m : handler) (so : list Trace.SpanStartOption) : handler :=
  mkHandler (operation m) (server m) (tracer m) (propagators m) so (readEvent m)
    (writeEvent m) (filters m) (spanNameFormatter m) (publicEndpoint m)
    (publicEndpointFn m) (metricAttributesFn m) (semconv m).

(** [tick W]: the world after one more reading of the clock. *)
Definition tick (W : World) : World :=
  mkWorld (clock W) (S (ticks W)) (otel W) (labelers W).

(** [sameClock W W']: the clock, the readings taken and the registry of
    [W'] are those of [W] (the labelers may differ). *)
Definition sameClock (W W' : World) : Prop :=
  clock W' = clock W /\ ticks W' = ticks W /\ otel W' = otel W.

(** A callback that only adds handler events to the trace. *)
Definition quiet (c : M unit) : Prop :=
  forall W, exists tr, c W = (Normal tt, W, tr) /\ forallb handlerEvent tr = true.

Definition quietWrappers (st : Wrappers) : Prop :=
  (forall n, quiet (InternalRequest.OnRead (fst st) n))
  /\ (forall n, quiet (InternalRequest.OnWrite (snd st) n)).

(** ** The cycle of a request *)

Section CycleNotions.

Variable Version : string.
Variable tracerStart :
  Trace.Tracer -> GoContext.Context -> string -> list Trace.SpanStartOption ->
  GoContext.Context * Trace.Span.
Variables (m : handler) (w : Http.ResponseWriter) (r : Http.Request).
Variables (next : HandlerFunc) (pp : PathParams) (W : World).

(** The tracer, the options, the timer origin and the span of the cycle. *)
Definition chosenTracer : Trace.Tracer :=
  match tracer m with
  | Some t => t
  | None =>
      if Trace.IsValid (Trace.spanContext (SpanFromContext (Http.Context r)))
      then newTracer Version (Trace.tracerProvider (SpanFromContext (Http.Context r)))
      else newTracer Version (GetTracerProvider (otel W))
  end.

Definition startOptions : list Trace.SpanStartOption :=
  let opts := [Trace.WithAttributes (Semconv.RequestTraceAttrs (semconv m) (server m) r)] in
  let opts :=
    if isPublic m r
    then
      let opts := opts ++ [Trace.WithNewRoot] in
      if Trace.IsValid (SpanContextFromContext (extracted m r))
         && Trace.IsRemote (SpanContextFromContext (extracted m r))
      then opts ++ [Trace.WithLinks [Trace.mkLink (SpanContextFromContext (extracted m r))]]
      else opts
    else opts in
  if negb (GoTime.IsZero (StartTimeFromContext (extracted m r)))
  then opts ++ [Trace.WithTimestamp (StartTimeFromContext (extracted m r))]
  else opts.

Definition timerOrigin : GoTime.Time :=
  if negb (GoTime.IsZero (StartTimeFromContext (extracted m r)))
  then StartTimeFromContext (extracted m r)
  else clock W (ticks W).

Definition started : GoContext.Context * Trace.Span :=
  tracerStart chosenTracer (extracted m r) (spanNameFormatter m (operation m) r)
    startOptions.

(** The cycle itself: [serveHTTP] run in the world [W]. *)
Definition cycle : Result unit * World * list Event :=
  run (serveHTTP Version tracerStart m w r next pp) W.

(** The events up to the call of the downstream handler. *)
Definition prologue (ctx : GoContext.Context) : list Event :=
  filterTrace (filters m) 0 r
  ++ [ EvStart chosenTracer (extracted m r) (spanNameFormatter m (operation m) r)
         startOptions;
       EvNewBodyWrapper (Http.Body r);
       EvNewRespWriterWrapper w;
       EvSnoopWrap w;
       EvNext (Http.snoopWrap w) (Http.WithContext (wrapped r) ctx) pp ].

(** The measurement handed to [RecordMetrics] after the handler returned
    with the wrappers in state [st] and the world in state [Wh]. *)
Definition cycleMetrics (l : Labeler) (st : Wrappers) (Wh : World)
  : Semconv.ServerMetricData :=
  Semconv.mkServerMetricData (server m) (InternalRequest.BytesWritten (snd st))
    (Semconv.mkMetricAttributes (wrapped r) (InternalRequest.StatusCode (snd st))
       (nth l (labelers Wh) [] ++ metricAttributesFromRequest m (wrapped r)))
    (Semconv.mkMetricData (InternalRequest.BytesRead (fst st))
       (GoTime.float64 (GoTime.Sub (clock W (S (ticks W))) timerOrigin)
        / GoTime.float64 GoTime.Millisecond)%float).

(** The events after the downstream handler returned. *)
Definition epilogue (ctx : GoContext.Context) (l : Labeler) (st : Wrappers)
  (Wh : World) : list Event :=
  let statusCode := InternalRequest.StatusCode (snd st) in
  [ EvSetStatus (snd started) (Semconv.Status statusCode);
    EvSetAttributes (snd started)
      (Semconv.ResponseTraceAttrs (semconv m)
         (Semconv.mkResponseTelemetry statusCode
            (InternalRequest.BytesRead (fst st)) (InternalRequest.BodyError (fst st))
            (InternalRequest.BytesWritten (snd st))
            (InternalRequest.WriterError (snd st))));
    EvRecordMetrics ctx (cycleMetrics l st Wh);
    EvEnd (snd started) ].

End CycleNotions.

(** ** Further notions: the configuration and the handed request *)

(** The options [config.go] offers. *)
Inductive listed : Option -> Prop :=
| listed_WithTracerProvider tp : listed (WithTracerProvider tp)
| listed_WithMeterProvider mp : listed (WithMeterProvider mp)
| listed_WithPublicEndpoint : listed WithPublicEndpoint
| listed_WithPublicEndpointFn fn : listed (WithPublicEndpointFn fn)
| listed_WithPropagators ps : listed (WithPropagators ps)
| listed_WithSpanOptions opts : listed (WithSpanOptions opts)
| listed_WithFilter f : listed (WithFilter f)
| listed_WithSpanNameFormatter fn : listed (WithSpanNameFormatter fn)
| listed_WithClientTrace fn : listed (WithClientTrace fn)
| listed_WithServerName server : listed (WithServerName server)
| listed_WithMetricAttributesFn fn : listed (WithMetricAttributesFn fn).

(** The configuration [NewMiddleware] arrives at before [newConfig] builds
    the tracer and the meter: the literal of [newConfig], the two default
    options, then the caller's. *)
Definition optionsApplied (G : Globals) (opts : list Option) : config :=
  applyOptions
    ([ WithSpanOptions [Trace.WithSpanKind Trace.SpanKindServer];
       WithSpanNameFormatter defaultHandlerFormatter ] ++ opts)
    (mkConfig "" None None (GetTextMapPropagator G) [] false None false false
       [] None None nilSpanNameFormatter None (GetMeterProvider G)).

(** The two callbacks [serveHTTP] hands to the wrappers, and the wrappers
    as it creates them. *)
Definition readRecordFunc (m : handler) (span : Trace.Span) : Z -> M unit :=
  if readEvent m
  then fun n => emit (EvAddEvent span "read" [Attribute.Int64 ReadBytesKey n])
  else fun _ => ret tt.

Definition writeRecordFunc (m : handler) (span : Trace.Span) : Z -> M unit :=
  if writeEvent m
  then fun n => emit (EvAddEvent span "write" [Attribute.Int64 WroteBytesKey n])
  else fun _ => ret tt.

Definition initialWrappers (m : handler) (w : Http.ResponseWriter) (r : Http.Request)
  (span : Trace.Span) : Wrappers :=
  (InternalRequest.mkBodyWrapper (Http.Body r) (readRecordFunc m span) 0 None,
   InternalRequest.mkRespWriterWrapper w (writeRecordFunc m span) Http.StatusOK
     false 0 None).

(** Whether a context binds a labeler; the labeler of the cycle whose span
    was started with context [ctx1] in world [W], the context handed
    downstream, and the world in which the downstream handler is called. *)
Definition bindsLabeler (ctx1 : GoContext.Context) : bool :=
  match GoContext.Value ctx1 GoContext.labelerContextKey with
  | Some (GoContext.anyLabeler _) => true
  | _ => false
  end.

Definition handedLabeler (ctx1 : GoContext.Context) (W : World) : Labeler :=
  match GoContext.Value ctx1 GoContext.labelerContextKey with
  | Some (GoContext.anyLabeler l) => l
  | _ => List.length (labelers W)
  end.

Definition handedContext (ctx1 : GoContext.Context) (W : World) : GoContext.Context :=
  if negb (bindsLabeler ctx1)
  then ContextWithLabeler ctx1 (handedLabeler ctx1 W)
  else ctx1.

Definition handedWorld (ctx1 : GoContext.Context) (W : World) : World :=
  if bindsLabeler ctx1 then tick W
  else mkWorld (clock W) (S (ticks W)) (otel W) (labelers W ++ [[]]).

(** The traffic on the body and the writer, without the span events. *)
Definition ioEvent (e : Event) : bool :=
  match e with
  | EvBodyRead _ _ | EvWriteHeader _ | EvWrite _ _ | EvFlush => true
  | _ => false
  end.

(** The [span.AddEvent] and [span.SetAttributes] calls of a trace. *)
Fixpoint addEvents (tr : list Event)
  : list (Trace.Span * string * list Attribute.KeyValue) :=
  match tr with
  | [] => []
  | EvAddEvent s name attrs :: tr' => (s, name, attrs) :: addEvents tr'
  | _ :: tr' => addEvents tr'
  end.

Fixpoint attributeSets (tr : list Event)
  : list (Trace.Span * list Attribute.KeyValue) :=
  match tr with
  | [] => []
  | EvSetAttributes s attrs :: tr' => (s, attrs) :: attributeSets tr'
  | _ :: tr' => attributeSets tr'
  end.

(** A callback that does nothing at all. *)
Definition mute (c : M unit) : Prop := forall W, c W = (Normal tt, W, []).

Definition muteWrappers (st : Wrappers) : Prop :=
  (forall n, mute (InternalRequest.OnRead (fst st) n))
  /\ (forall n, mute (InternalRequest.OnWrite (snd st) n)).

(** * Properties *)

(** ** Lemmas on traces *)

Lemma starts_app (a b : list Event) : starts (a ++ b) = starts a ++ starts b.
Proof. induction a as [|e a IH]; [reflexivity|]. destruct e; simpl; now rewrite IH. Qed.

Lemma ends_app (a b : list Event) : ends (a ++ b) = ends a ++ ends b.
Proof. induction a as [|e a IH]; [reflexivity|]. destruct e; simpl; now rewrite IH. Qed.

Lemma recorded_app (a b : list Event) : recorded (a ++ b) = recorded a ++ recorded b.
Proof. induction a as [|e a IH]; [reflexivity|]. destruct e; simpl; now rewrite IH. Qed.

Lemma statuses_app (a b : list Event) : statuses (a ++ b) = statuses a ++ statuses b.
Proof. induction a as [|e a IH]; [reflexivity|]. destruct e; simpl; now rewrite IH. Qed.

Lemma nexts_app (a b : list Event) : nexts (a ++ b) = nexts a ++ nexts b.
Proof. induction a as [|e a IH]; [reflexivity|]. destruct e; simpl; now rewrite IH. Qed.

Lemma handlerEvents_silent (tr : list Event) :
  forallb handlerEvent tr = true ->
  starts tr = [] /\ ends tr = [] /\ recorded tr = [] /\ statuses tr = [] /\ nexts tr = [].
Proof.
  induction tr as [|e tr IH]; [now repeat split|].
  simpl. intros H. apply andb_prop in H. destruct H as [He Htr].
  destruct e; try discriminate He; simpl; auto.
Qed.

Lemma filterEvents_silent (tr : list Event) :
  forallb filterEvent tr = true ->
  starts tr = [] /\ ends tr = [] /\ recorded tr = [] /\ statuses tr = [] /\ nexts tr = [].
Proof.
  induction tr as [|e tr IH]; [now repeat split|].
  simpl. intros H. apply andb_prop in H. destruct H as [He Htr].
  destruct e; try discriminate He; simpl; auto.
Qed.

Lemma filterTrace_filterEvents (fs : list Filter) (i : nat) (r : Http.Request) :
  forallb filterEvent (filterTrace fs i r) = true.
Proof.
  revert i. induction fs as [|f fs IH]; intros i; [reflexivity|].
  simpl. destruct (f r); [apply IH | reflexivity].
Qed.

Lemma runFilters_run (fs : list Filter) (i : nat) (r : Http.Request) (W : World) :
  runFilters fs i r W = (Normal (forallb (fun f => f r) fs), W, filterTrace fs i r).
Proof.
  revert i. induction fs as [|f fs IH]; intros i; [reflexivity|].
  simpl. unfold bind, emit. destruct (f r); simpl.
  - now rewrite IH.
  - reflexivity.
Qed.

(** ** The downstream handler's part of a cycle *)

Lemma sameClock_refl (W : World) : sameClock W W.
Proof. now repeat split. Qed.

Lemma sameClock_trans (W1 W2 W3 : World) :
  sameClock W1 W2 -> sameClock W2 W3 -> sameClock W1 W3.
Proof.
  unfold sameClock. intros (a & b & c) (d & e & f).
  repeat split; congruence.
Qed.

Lemma LabelerFromContext_run (ctx : GoContext.Context) (W : World) :
  exists l found W',
    LabelerFromContext ctx W = (Normal (l, found), W', [])
    /\ sameClock W W'
    /\ (if found
        then GoContext.Value ctx GoContext.labelerContextKey = Some (GoContext.anyLabeler l)
             /\ W' = W
        else l = List.length (labelers W) /\ labelers W' = labelers W ++ [[]]).
Proof.
  unfold LabelerFromContext.
  destruct (GoContext.Value ctx GoContext.labelerContextKey) as [[t|s|l|z]|] eqn:E;
    try (eexists _, false, _; split; [reflexivity|];
         split; [now repeat split | now split]).
  exists l, true, W. split; [reflexivity|]. split; [apply sameClock_refl | now split].
Qed.

Lemma runOp_spec (r : Http.Request) (op : HandlerOp) (st : Wrappers) (W : World) :
  quietWrappers st ->
  exists res W' tr,
    runOp r op st W = (res, W', tr)
    /\ forallb handlerEvent tr = true
    /\ sameClock W W'
    /\ (forall st', res = Normal st' -> quietWrappers st').
Proof.
  intros [Hr Hw]. destruct st as [bw rww]. simpl in Hr, Hw.
  destruct op as [n e|code|n e| |kvs]; simpl.
  - (* a read *)
    destruct (Http.Body r).
    + eexists _, _, _. split; [reflexivity|]. split; [reflexivity|].
      split; [apply sameClock_refl | discriminate].
    + eexists _, _, _. split; [reflexivity|]. split; [reflexivity|].
      split; [apply sameClock_refl|]. intros st' E. inversion E. split; simpl; assumption.
    + eexists _, _, _. split; [reflexivity|]. split; [reflexivity|].
      split; [apply sameClock_refl|]. intros st' E. inversion E. split; simpl; assumption.
    + unfold InternalRequest.Read, bind, emit, ret. destruct e as [e|].
      * eexists _, _, _. split; [reflexivity|]. split; [reflexivity|].
        split; [apply sameClock_refl|]. intros st' E. inversion E. split; simpl; assumption.
      * destruct (Hr (InternalRequest.read bw + n) W) as (tr & Etr & Htr).
        simpl. rewrite Etr. eexists _, _, _. split; [reflexivity|].
        split; [simpl; now rewrite !app_nil_r|].
        split; [apply sameClock_refl|]. intros st' E. inversion E. split; simpl; assumption.
  - (* WriteHeader *)
    unfold InternalRequest.WriteHeader, bind, emit, ret. simpl.
    eexists _, _, _. split; [reflexivity|]. split; [reflexivity|].
    split; [apply sameClock_refl|]. intros st' E. inversion E.
    destruct (InternalRequest.wroteHeader rww); split; simpl; assumption.
  - (* Write *)
    unfold InternalRequest.Write, InternalRequest.WriteHeader, bind, emit, ret.
    destruct (InternalRequest.wroteHeader rww) eqn:Ewh; simpl; rewrite ?Ewh; simpl;
      destruct e as [e|]; simpl.
    + eexists _, _, _. split; [reflexivity|]. split; [reflexivity|].
      split; [apply sameClock_refl|]. intros st' E. inversion E. split; simpl; assumption.
    + destruct (Hw (InternalRequest.written rww + n) W) as (tr & Etr & Htr).
      rewrite Etr. eexists _, _, _. split; [reflexivity|].
      split; [simpl; now rewrite !app_nil_r|].
      split; [apply sameClock_refl|]. intros st' E. inversion E. split; simpl; assumption.
    + eexists _, _, _. split; [reflexivity|]. split; [reflexivity|].
      split; [apply sameClock_refl|]. intros st' E. inversion E. split; simpl; assumption.
    + destruct (Hw (InternalRequest.written rww + n) W) as (tr & Etr & Htr).
      rewrite Etr. eexists _, _, _. split; [reflexivity|].
      split; [simpl; now rewrite !app_nil_r|].
      split; [apply sameClock_refl|]. intros st' E. inversion E. split; simpl; assumption.
  - (* Flush *)
    eexists _, _, _. split; [reflexivity|]. split; [reflexivity|].
    split; [apply sameClock_refl|]. intros st' E. inversion E. split; simpl; assumption.
  - (* an addition to the labeler *)
    unfold bind.
    destruct (LabelerFromContext_run (Http.Context r) W) as (l & found & W' & E & Hc & _).
    rewrite E. unfold LabelerAdd, ret. simpl.
    eexists _, _, _. split; [reflexivity|]. split; [reflexivity|].
    split; [exact Hc|]. intros st' E'. inversion E'. now split.
Qed.

Lemma runOps_spec (r : Http.Request) (ops : list HandlerOp) :
  forall (st : Wrappers) (W : World),
    quietWrappers st ->
    exists res W' tr,
      runOps r ops st W = (res, W', tr)
      /\ forallb handlerEvent tr = true
      /\ sameClock W W'
      /\ (forall st', res = Normal st' -> quietWrappers st').
Proof.
  induction ops as [|op ops IH]; intros st W Hq.
  - eexists _, _, _. split; [reflexivity|]. split; [reflexivity|].
    split; [apply sameClock_refl|]. intros st' E. now inversion E; subst.
  - simpl. unfold bind.
    destruct (runOp_spec r op st W Hq) as (res & W1 & tr1 & E1 & H1 & C1 & Q1).
    rewrite E1. destruct res as [st1|v].
    + destruct (IH st1 W1 (Q1 _ eq_refl)) as (res2 & W2 & tr2 & E2 & H2 & C2 & Q2).
      rewrite E2. eexists _, _, _. split; [reflexivity|].
      split; [now rewrite forallb_app, H1, H2|].
      split; [eapply sameClock_trans; eassumption | exact Q2].
    + eexists _, _, _. split; [reflexivity|]. split; [exact H1|].
      split; [exact C1 | discriminate].
Qed.

(** A call of the downstream handler: the [EvNext] event, then handler
    events only; the clock is not read; a handler that panics makes the
    call panic. *)
Lemma call_spec (next : HandlerFunc) (w : Http.ResponseWriter) (r : Http.Request)
  (pp : PathParams) (st : Wrappers) (W : World) :
  quietWrappers st ->
  exists res W' tr,
    call next w r pp st W = (res, W', EvNext w r pp :: tr)
    /\ forallb handlerEvent tr = true
    /\ sameClock W W'
    /\ (forall v, snd (next w r pp) = Panics v -> exists v', res = Panic v').
Proof.
  intros Hq. unfold call, bind, emit. destruct (next w r pp) as [ops fin]. simpl.
  destruct (runOps_spec r ops st W Hq) as (res & W1 & tr & E & H & C & _).
  rewrite E. destruct res as [st1|v].
  - destruct fin as [|v]; simpl.
    + eexists _, _, _. split; [reflexivity|]. split; [now rewrite app_nil_r|].
      split; [exact C | discriminate].
    + eexists _, _, _. split; [reflexivity|]. split; [now rewrite app_nil_r|].
      split; [exact C|]. intros v0 _. now exists v.
  - eexists _, _, _. split; [reflexivity|]. split; [exact H|].
    split; [exact C|]. intros v0 _. now exists v.
Qed.

(** A handler that returns makes the call return, unless it reads a [nil]
    body. *)
Lemma runOp_returns (r : Http.Request) (op : HandlerOp) (st : Wrappers) (W : World) :
  Http.Body r <> Http.nilBody ->
  quietWrappers st ->
  exists st' W' tr, runOp r op st W = (Normal st', W', tr).
Proof.
  intros Hbody Hq.
  destruct (runOp_spec r op st W Hq) as (res & W' & tr & E & _).
  destruct res as [st'|v]; [now exists st', W', tr|].
  exfalso. destruct st as [bw rww]. destruct Hq as [Hr Hw]. simpl in Hr, Hw.
  destruct op as [n e|code|n e| |kvs]; simpl in E.
  - destruct (Http.Body r); [now apply Hbody| | |]; unfold bind, emit, ret in E;
      simpl in E; try discriminate E.
    unfold InternalRequest.Read, bind, emit, ret in E. destruct e as [e|]; simpl in E;
      [discriminate E|].
    destruct (Hr (InternalRequest.read bw + n) W) as (tr0 & Etr & _).
    rewrite Etr in E. discriminate E.
  - unfold InternalRequest.WriteHeader, bind, emit, ret in E. simpl in E. discriminate E.
  - unfold InternalRequest.Write, InternalRequest.WriteHeader, bind, emit, ret in E.
    destruct (InternalRequest.wroteHeader rww) eqn:Ewh; simpl in E; rewrite ?Ewh in E;
      simpl in E; destruct e as [e|]; simpl in E; try discriminate E;
      destruct (Hw (InternalRequest.written rww + n) W) as (tr0 & Etr & _);
      rewrite Etr in E; discriminate E.
  - unfold InternalRequest.Flush, bind, emit, ret in E. simpl in E. discriminate E.
  - unfold bind in E.
    destruct (LabelerFromContext_run (Http.Context r) W) as (l & found & W1 & El & _).
    rewrite El in E. unfold LabelerAdd, ret in E. simpl in E. discriminate E.
Qed.

Lemma runOps_returns (r : Http.Request) (ops : list HandlerOp) :
  Http.Body r <> Http.nilBody ->
  forall (st : Wrappers) (W : World),
    quietWrappers st ->
    exists st' W' tr, runOps r ops st W = (Normal st', W', tr).
Proof.
  intros Hbody. induction ops as [|op ops IH]; intros st W Hq.
  - now exists st, W, [].
  - simpl. unfold bind.
    destruct (runOp_returns r op st W Hbody Hq) as (st1 & W1 & tr1 & E1).
    destruct (runOp_spec r op st W Hq) as (res & W1' & tr1' & E1' & _ & _ & Q1).
    rewrite E1. rewrite E1 in E1'. inversion E1' as [[Hres HW Htr]].
    destruct (IH st1 W1' (Q1 st1 (eq_sym Hres))) as (st2 & W2 & tr2 & E2).
    cbv beta iota. rewrite E2. now eexists _, _, _.
Qed.

Lemma call_returns (next : HandlerFunc) (w : Http.ResponseWriter) (r : Http.Request)
  (pp : PathParams) (st : Wrappers) (W : World) :
  snd (next w r pp) = Returns ->
  Http.Body r <> Http.nilBody ->
  quietWrappers st ->
  exists st' W' tr, call next w r pp st W = (Normal st', W', tr).
Proof.
  intros Hfin Hbody Hq. unfold call, bind, emit.
  destruct (next w r pp) as [ops fin]. simpl in Hfin. subst fin. simpl.
  destruct (runOps_returns r ops Hbody st W Hq) as (st' & W' & tr & E).
  rewrite E. now eexists _, _, _.
Qed.

(** ** The labeler store *)

Lemma appendAt_length (l : nat) (kvs : list Attribute.KeyValue)
  (store : list (list Attribute.KeyValue)) :
  List.length (appendAt l kvs store) = List.length store.
Proof.
  revert l. induction store as [|bag store IH]; intros l; [now destruct l|].
  destruct l; simpl; [reflexivity | now rewrite IH].
Qed.

Lemma appendAt_nth (l : nat) (kvs : list Attribute.KeyValue)
  (store : list (list Attribute.KeyValue)) :
  (l < List.length store)%nat ->
  nth l (appendAt l kvs store) [] = nth l store [] ++ kvs.
Proof.
  revert l. induction store as [|bag store IH]; intros l Hl; simpl in Hl; [lia|].
  destruct l; simpl; [reflexivity | apply IH; lia].
Qed.

Lemma runOp_labels (r : Http.Request) (op : HandlerOp) (st st' : Wrappers)
  (W W' : World) (tr : list Event) (l : Labeler) :
  quietWrappers st ->
  GoContext.Value (Http.Context r) GoContext.labelerContextKey
    = Some (GoContext.anyLabeler l) ->
  runOp r op st W = (Normal st', W', tr) ->
  labelers W' = match op with
                | OpLabelerAdd kvs => appendAt l kvs (labelers W)
                | _ => labelers W
                end.
Proof.
  intros [Hr Hw] Hl. destruct st as [bw rww]. simpl in Hr, Hw.
  destruct op as [n e|code|n e| |kvs]; simpl.
  - destruct (Http.Body r); unfold bind, emit, ret, panic; simpl;
      try (intros E; inversion E; reflexivity).
    unfold InternalRequest.Read, bind, emit, ret. destruct e as [e|]; simpl.
    + intros E; inversion E; reflexivity.
    + destruct (Hr (InternalRequest.read bw + n) W) as (tr0 & Etr & _).
      rewrite Etr. intros E; inversion E; reflexivity.
  - unfold InternalRequest.WriteHeader, bind, emit, ret. simpl.
    intros E; inversion E; reflexivity.
  - unfold InternalRequest.Write, InternalRequest.WriteHeader, bind, emit, ret.
    destruct (InternalRequest.wroteHeader rww) eqn:Ewh; simpl; rewrite ?Ewh; simpl;
      destruct e as [e|]; simpl;
      try (intros E; inversion E; reflexivity);
      destruct (Hw (InternalRequest.written rww + n) W) as (tr0 & Etr & _);
      rewrite Etr; intros E; inversion E; reflexivity.
  - unfold InternalRequest.Flush, bind, emit, ret. simpl.
    intros E; inversion E; reflexivity.
  - unfold bind, LabelerFromContext. rewrite Hl. unfold ret, LabelerAdd. simpl.
    intros E; inversion E; reflexivity.
Qed.

Lemma runOps_labels (r : Http.Request) (l : Labeler) (ops : list HandlerOp) :
  GoContext.Value (Http.Context r) GoContext.labelerContextKey
    = Some (GoContext.anyLabeler l) ->
  forall (st st' : Wrappers) (W W' : World) (tr : list Event),
    quietWrappers st ->
    runOps r ops st W = (Normal st', W', tr) ->
    List.length (labelers W') = List.length (labelers W)
    /\ ((l < List.length (labelers W))%nat ->
        nth l (labelers W') [] = nth l (labelers W) [] ++ addedLabels ops).
Proof.
  intros Hl. induction ops as [|op ops IH]; intros st st' W W' tr Hq.
  - simpl. unfold ret. intros E; inversion E; subst.
    split; [reflexivity|]. intros _. now rewrite app_nil_r.
  - simpl. unfold bind.
    destruct (runOp_spec r op st W Hq) as (res & W1 & tr1 & E1 & _ & _ & Q1).
    rewrite E1. destruct res as [st1|v]; [|discriminate].
    destruct (runOps r ops st1 W1) as [[res2 W2] tr2] eqn:E2.
    intros E; inversion E; subst.
    destruct (IH _ _ _ _ _ (Q1 _ eq_refl) E2) as [Hlen Hnth].
    pose proof (runOp_labels r op st st1 W W1 tr1 l Hq Hl E1) as H1.
    assert (Hlen1 : List.length (labelers W1) = List.length (labelers W)).
    { rewrite H1. destruct op; try reflexivity. apply appendAt_length. }
    split; [congruence|]. intros Hlt.
    rewrite Hnth by lia. rewrite H1.
    destruct op as [n e|code|n e| |kvs]; simpl; try reflexivity.
    rewrite appendAt_nth by exact Hlt. now rewrite app_assoc.
Qed.

Lemma call_labels (next : HandlerFunc) (w : Http.ResponseWriter) (r : Http.Request)
  (pp : PathParams) (st st' : Wrappers) (W W' : World) (tr : list Event) (l : Labeler) :
  quietWrappers st ->
  GoContext.Value (Http.Context r) GoContext.labelerContextKey
    = Some (GoContext.anyLabeler l) ->
  call next w r pp st W = (Normal st', W', tr) ->
  List.length (labelers W') = List.length (labelers W)
  /\ ((l < List.length (labelers W))%nat ->
      nth l (labelers W') [] = nth l (labelers W) [] ++ addedLabels (fst (next w r pp))).
Proof.
  intros Hq Hl. unfold call, bind, emit. destruct (next w r pp) as [ops fin]. simpl.
  destruct (runOps r ops st W) as [[res W1] tr1] eqn:E.
  destruct res as [st1|v]; [|discriminate].
  destruct fin as [|v]; simpl; [|discriminate].
  intros E'; inversion E'; subst.
  eapply runOps_labels; eassumption.
Qed.

(** ** The cycle of an accepted request *)

Section Cycle.

Variable Version : string.
Variable tracerStart :
  Trace.Tracer -> GoContext.Context -> string -> list Trace.SpanStartOption ->
  GoContext.Context * Trace.Span.
Variables (m : handler) (w : Http.ResponseWriter) (r : Http.Request).
Variables (next : HandlerFunc) (pp : PathParams) (W : World).

(** The notions of the cycle, at the variables of this section. *)
Local Abbreviation chosenTracer := (chosenTracer Version m r W).
Local Abbreviation startOptions := (startOptions m r).
Local Abbreviation timerOrigin := (timerOrigin m r W).
Local Abbreviation started := (started Version tracerStart m r W).
Local Abbreviation cycle := (cycle Version tracerStart m w r next pp W).
Local Abbreviation prologue := (prologue Version m w r pp W).
Local Abbreviation cycleMetrics := (cycleMetrics m r W).
Local Abbreviation epilogue := (epilogue Version tracerStart m r W).

Lemma serveHTTP_rejected :
  accepts m r = false ->
  run (serveHTTP Version tracerStart m w r next pp) W
  = (Normal tt, tick W, filterTrace (filters m) 0 r).
Proof.
  intros Hacc. unfold run, serveHTTP, bind, Now.
  rewrite runFilters_run. fold (accepts m r). rewrite Hacc. simpl.
  now rewrite app_nil_r.
Qed.

Lemma serveHTTP_accepted :
  accepts m r = true ->
  exists (l : Labeler) (ctx : GoContext.Context) (hres : Result Wrappers)
         (Wh : World) (htr : list Event),
    GoContext.Value ctx GoContext.labelerContextKey = Some (GoContext.anyLabeler l)
    /\ forallb handlerEvent htr = true
    /\ sameClock (tick W) Wh
    /\ (forall v,
          snd (next (Http.snoopWrap w) (Http.WithContext (wrapped r) ctx) pp) = Panics v ->
          exists v', hres = Panic v')
    /\ (snd (next (Http.snoopWrap w) (Http.WithContext (wrapped r) ctx) pp) = Returns ->
        Http.Body r <> Http.nilBody ->
        exists st, hres = Normal st)
    /\ (forall st,
          hres = Normal st ->
          (l < List.length (labelers Wh))%nat ->
          nth l (labelers Wh) []
          = nth l (labelers W) []
            ++ addedLabels
                 (fst (next (Http.snoopWrap w) (Http.WithContext (wrapped r) ctx) pp)))
    /\ run (serveHTTP Version tracerStart m w r next pp) W
       = match hres with
         | Normal st =>
             (Normal tt, tick Wh, prologue ctx ++ htr ++ epilogue ctx l st Wh)
         | Panic v =>
             (Panic v, Wh, prologue ctx ++ htr ++ [EvEnd (snd started)])
         end.
Proof.
  intros Hacc.
  destruct started as [ctx1 span] eqn:Est.
  destruct (LabelerFromContext_run ctx1 (tick W)) as (l & found & W1 & El & Cl & Hl).
  set (ctx := if negb found then ContextWithLabeler ctx1 l else ctx1).
  set (readRecordFunc :=
         if readEvent m
         then fun n => emit (EvAddEvent span "read" [Attribute.Int64 ReadBytesKey n])
         else fun _ : Z => ret tt).
  set (writeRecordFunc :=
         if writeEvent m
         then fun n => emit (EvAddEvent span "write" [Attribute.Int64 WroteBytesKey n])
         else fun _ : Z => ret tt).
  assert (Hq : quietWrappers
                 (InternalRequest.mkBodyWrapper (Http.Body r) readRecordFunc 0 None,
                  InternalRequest.mkRespWriterWrapper w writeRecordFunc Http.StatusOK
                    false 0 None)).
  { split; intros n W0; simpl; unfold readRecordFunc, writeRecordFunc.
    - destruct (readEvent m); eexists; split; reflexivity.
    - destruct (writeEvent m); eexists; split; reflexivity. }
  destruct (call_spec next (Http.snoopWrap w) (Http.WithContext (wrapped r) ctx) pp _ W1 Hq)
    as (hres & Wh & htr & Ec & Hh & Ch & Hp).
  assert (Hbind : GoContext.Value ctx GoContext.labelerContextKey
                  = Some (GoContext.anyLabeler l)).
  { unfold ctx. destruct found; [apply Hl | reflexivity]. }
  exists l, ctx, hres, Wh, htr.
  split; [exact Hbind|].
  split; [exact Hh|].
  split; [eapply sameClock_trans; eassumption|].
  split; [exact Hp|].
  split.
  { intros Hfin Hbody.
    assert (Hbody' : Http.Body (Http.WithContext (wrapped r) ctx) <> Http.nilBody).
    { unfold wrapped. destruct (Http.Body r) eqn:Eb; simpl; rewrite ?Eb; congruence. }
    destruct (call_returns next _ _ pp _ W1 Hfin Hbody' Hq) as (st' & W' & tr' & Ec').
    rewrite Ec in Ec'. inversion Ec'. now exists st'. }
  split.
  { intros st Est' Hlt. subst hres.
    destruct (call_labels next (Http.snoopWrap w) (Http.WithContext (wrapped r) ctx)
                pp _ _ _ _ _ l Hq Hbind Ec) as [Hlen Hnth].
    rewrite Hnth by lia. f_equal.
    destruct found.
    - destruct Hl as [_ ->]. reflexivity.
    - destruct Hl as [-> ->]. simpl.
      rewrite app_nth2 by lia. rewrite Nat.sub_diag. simpl.
      symmetry. apply nth_overflow. lia. }
  unfold prologue, epilogue, cycleMetrics. rewrite Est. simpl snd.
  unfold started, startOptions, chosenTracer, isPublic, extracted in Est.
  unfold timerOrigin, startOptions, chosenTracer, isPublic, extracted.
  unfold tick in El.
  unfold run, serveHTTP, bind at 1 2. unfold Now at 1.
  rewrite runFilters_run. fold (accepts m r). rewrite Hacc. simpl negb. cbv iota.
  destruct (GoTime.IsZero
              (StartTimeFromContext
                 (Propagation.Extract (propagators m) (Http.Context r) (Http.header r))))
    eqn:EZ; simpl negb in *; cbv iota in *;
  (destruct (tracer m) as [t|];
   [| destruct (Trace.IsValid (Trace.spanContext (SpanFromContext (Http.Context r))))]);
  unfold bind, Start, defer, emit, ret, getGlobals, InternalRequest.NewBodyWrapper,
    InternalRequest.NewRespWriterWrapper; simpl;
  match goal with
  | |- context [tracerStart ?a ?b ?c ?d] =>
      replace (tracerStart a b c d) with (ctx1, span) by (symmetry; exact Est)
  end;
  rewrite El; cbv beta iota;
  match goal with
  | |- context [call ?a ?b ?c ?d ?e ?f] =>
      replace (call a b c d e f)
        with (hres, Wh, EvNext (Http.snoopWrap w) (Http.WithContext (wrapped r) ctx) pp :: htr)
        by (symmetry; exact Ec)
  end;
  (assert (Hclock : clock Wh = clock W /\ ticks Wh = S (ticks W))
     by (destruct Cl as (c1 & c2 & _), Ch as (c3 & c4 & _); split; simpl in *; congruence));
  destruct Hclock as [Hc1 Hc2];
  (destruct hres as [[bw rww]|v]; cbv beta iota; unfold tick; simpl;
   rewrite ?Hc1, ?Hc2, <- ?app_assoc; simpl; rewrite ?app_nil_r; reflexivity).
Qed.


(** What a cycle of an accepted request leaves in the trace. *)
Lemma cycle_summary :
  accepts m r = true ->
  exists (l : Labeler) (ctx : GoContext.Context) (hres : Result Wrappers) (Wh : World),
    let x := run (serveHTTP Version tracerStart m w r next pp) W in
    let handed := (Http.snoopWrap w, Http.WithContext (wrapped r) ctx, pp) in
    GoContext.Value ctx GoContext.labelerContextKey = Some (GoContext.anyLabeler l)
    /\ sameClock (tick W) Wh
    /\ (forall v, snd (next (Http.snoopWrap w) (Http.WithContext (wrapped r) ctx) pp)
                  = Panics v ->
                  exists v', hres = Panic v')
    /\ (snd (next (Http.snoopWrap w) (Http.WithContext (wrapped r) ctx) pp) = Returns ->
        Http.Body r <> Http.nilBody ->
        exists st, hres = Normal st)
    /\ (forall st,
          hres = Normal st ->
          (l < List.length (labelers Wh))%nat ->
          nth l (labelers Wh) []
          = nth l (labelers W) []
            ++ addedLabels
                 (fst (next (Http.snoopWrap w) (Http.WithContext (wrapped r) ctx) pp)))
    /\ starts (trace x)
       = [(chosenTracer, extracted m r, spanNameFormatter m (operation m) r, startOptions)]
    /\ ends (trace x) = [snd started]
    /\ nexts (trace x) = [handed]
    /\ match hres with
       | Normal st =>
           result x = Normal tt
           /\ world x = tick Wh
           /\ recorded (trace x) = [(ctx, cycleMetrics l st Wh)]
           /\ statuses (trace x)
              = [(snd started, Semconv.Status (InternalRequest.StatusCode (snd st)))]
           /\ exists pre, trace x
                          = pre ++ [EvRecordMetrics ctx (cycleMetrics l st Wh);
                                    EvEnd (snd started)]
       | Panic v =>
           result x = Panic v
           /\ world x = Wh
           /\ recorded (trace x) = []
           /\ statuses (trace x) = []
       end.
Proof.
  intros Hacc.
  destruct (serveHTTP_accepted Hacc)
    as (l & ctx & hres & Wh & htr & Hb & Hh & Hc & Hp & Hn & Hl & E).
  exists l, ctx, hres, Wh. cbv zeta.
  destruct (filterEvents_silent _ (filterTrace_filterEvents (filters m) 0 r))
    as (F1 & F2 & F3 & F4 & F5).
  destruct (handlerEvents_silent _ Hh) as (H1 & H2 & H3 & H4 & H5).
  rewrite E.
  split; [exact Hb|]. split; [exact Hc|]. split; [exact Hp|]. split; [exact Hn|].
  split; [exact Hl|].
  destruct hres as [st|v]; unfold trace, result, world, prologue, epilogue;
    cbn [fst snd];
    rewrite !starts_app, !ends_app, !nexts_app, !recorded_app, !statuses_app,
            F1, F2, F3, F4, F5, H1, H2, H3, H4, H5;
    cbn [starts ends nexts recorded statuses app].
  - do 7 (split; [reflexivity|]).
    exists (filterTrace (filters m) 0 r
            ++ [ EvStart chosenTracer (extracted m r)
                   (spanNameFormatter m (operation m) r) startOptions;
                 EvNewBodyWrapper (Http.Body r);
                 EvNewRespWriterWrapper w;
                 EvSnoopWrap w;
                 EvNext (Http.snoopWrap w) (Http.WithContext (wrapped r) ctx) pp ]
            ++ htr
            ++ [ EvSetStatus (snd started)
                   (Semconv.Status (InternalRequest.StatusCode (snd st)));
                 EvSetAttributes (snd started)
                   (Semconv.ResponseTraceAttrs (semconv m)
                      (Semconv.mkResponseTelemetry
                         (InternalRequest.StatusCode (snd st))
                         (InternalRequest.BytesRead (fst st))
                         (InternalRequest.BodyError (fst st))
                         (InternalRequest.BytesWritten (snd st))
                         (InternalRequest.WriterError (snd st)))) ]).
    rewrite <- !app_assoc. reflexivity.
  - do 6 (split; [reflexivity|]). reflexivity.
Qed.


(** The options of the cycle, written out. *)
Lemma startOptions_eq :
  startOptions
  = [Trace.WithAttributes (Semconv.RequestTraceAttrs (semconv m) (server m) r)]
    ++ (if isPublic m r
        then Trace.WithNewRoot
             :: (if Trace.IsValid (SpanContextFromContext (extracted m r))
                    && Trace.IsRemote (SpanContextFromContext (extracted m r))
                 then [Trace.WithLinks
                         [Trace.mkLink (SpanContextFromContext (extracted m r))]]
                 else [])
        else [])
    ++ (if GoTime.IsZero (StartTimeFromContext (extracted m r))
        then []
        else [Trace.WithTimestamp (StartTimeFromContext (extracted m r))]).
Proof.
  unfold startOptions.
  destruct (isPublic m r);
    destruct (Trace.IsValid (SpanContextFromContext (extracted m r))
              && Trace.IsRemote (SpanContextFromContext (extracted m r)));
    destruct (GoTime.IsZero (StartTimeFromContext (extracted m r))); reflexivity.
Qed.

Lemma isPublic_true :
  (publicEndpoint m = true
   \/ exists fn, publicEndpointFn m = Some fn
                 /\ fn (Http.WithContext r (extracted m r)) = true) ->
  isPublic m r = true.
Proof.
  unfold isPublic. intros [H | (fn & Hfn & H)].
  - now rewrite H.
  - rewrite Hfn, H. apply orb_true_r.
Qed.

Lemma isPublic_false :
  publicEndpoint m = false ->
  (publicEndpointFn m = None
   \/ exists fn, publicEndpointFn m = Some fn
                 /\ fn (Http.WithContext r (extracted m r)) = false) ->
  isPublic m r = false.
Proof.
  unfold isPublic. intros H0 [H | (fn & Hfn & H)].
  - now rewrite H0, H.
  - now rewrite H0, Hfn, H.
Qed.

Lemma filterTrace_rejected (fs : list Filter) :
  forall i : nat,
    forallb (fun f => f r) fs = false ->
    exists (k : nat) (f : Filter),
      nth_error fs k = Some f
      /\ f r = false
      /\ (forall j g, (j < k)%nat -> nth_error fs j = Some g -> g r = true)
      /\ filterTrace fs i r
         = map (fun j => EvFilter j r true) (seq i k) ++ [EvFilter (i + k) r false].
Proof.
  induction fs as [|f fs IH]; intros i H; [discriminate|].
  simpl in H. destruct (f r) eqn:Ef.
  - destruct (IH (S i) H) as (k & g & Hk & Hg & Hbefore & Htr).
    exists (S k), g. split; [exact Hk|]. split; [exact Hg|]. split.
    + intros j g' Hj Hnth. destruct j as [|j]; simpl in Hnth.
      * now inversion Hnth; subst.
      * apply (Hbefore j); [lia | exact Hnth].
    + simpl. rewrite Ef, Htr. now rewrite Nat.add_succ_r.
  - exists 0%nat, f. split; [reflexivity|]. split; [exact Ef|]. split.
    + intros j g Hj. lia.
    + simpl. now rewrite Ef, Nat.add_0_r.
Qed.

(** ** The claims on the cycle *)

(** Opens a proof on an accepted request with the facts of
    [cycle_summary]. *)
Ltac cycle_facts Hacc :=
  destruct (cycle_summary Hacc)
    as (l & ctx & hres & Wh & Hb & Hc & Hp & Hrets & Hl & Hs & He & Hn & Hres);
  cbv zeta in *; fold cycle in *.

(** C1 (as amended): in a cycle of an accepted request, [RecordMetrics] is
    called exactly once, just before the deferred [span.End], when the
    downstream handler returns (and the cycle does return then, provided
    the handler does not read a [nil] body); when the cycle ends in a
    panic, only the deferred [span.End] has run and no metric was
    recorded; and a handler that panics makes the cycle end in a panic. *)
Theorem C1_metrics_are_recorded_when_the_handler_returns :
  accepts m r = true ->
  (result cycle = Normal tt ->
     exists ctx md pre,
       recorded (trace cycle) = [(ctx, md)]
       /\ trace cycle = pre ++ [EvRecordMetrics ctx md; EvEnd (snd started)])
  /\ ((forall w0 r0 pp0, snd (next w0 r0 pp0) = Returns) ->
      Http.Body r <> Http.nilBody ->
      result cycle = Normal tt)
  /\ (forall v, result cycle = Panic v ->
        recorded (trace cycle) = [] /\ ends (trace cycle) = [snd started])
  /\ ((forall w0 r0 pp0, exists v, snd (next w0 r0 pp0) = Panics v) ->
        exists v, result cycle = Panic v).
Proof.
  intros Hacc.
  cycle_facts Hacc.
  destruct hres as [st|v0].
  - destruct Hres as (Hr & Hw & Hrec & Hst & pre & Htr).
    split; [|split; [|split]].
    + intros _. now exists ctx, (cycleMetrics l st Wh), pre.
    + intros _ _. exact Hr.
    + intros v Hv. rewrite Hr in Hv. discriminate.
    + intros Hpanics.
      destruct (Hpanics (Http.snoopWrap w) (Http.WithContext (wrapped r) ctx) pp) as [v Hv].
      destruct (Hp v Hv) as [v' Hv']. discriminate.
  - destruct Hres as (Hr & Hw & Hrec & Hst).
    split; [|split; [|split]].
    + intros Hv. rewrite Hr in Hv. discriminate.
    + intros Hreturns Hbody.
      destruct (Hrets (Hreturns _ _ _) Hbody) as [st Hst']. discriminate.
    + intros v _. now split.
    + intros _. now exists v0.
Qed.

(** C2: a cycle of a request accepted by every filter calls [tracer.Start]
    exactly once and [span.End] exactly once, on the span that [Start]
    returned, whatever the downstream handler does; when the handler
    panics the cycle ends in a panic and the span was ended all the same;
    a cycle of a rejected request starts and ends no span. *)
Theorem C2_one_span_started_and_ended :
  (accepts m r = true ->
     exists t ctx name opts,
       starts (trace cycle) = [(t, ctx, name, opts)]
       /\ ends (trace cycle) = [snd (tracerStart t ctx name opts)])
  /\ (accepts m r = true ->
      (forall w0 r0 pp0, exists v, snd (next w0 r0 pp0) = Panics v) ->
      (exists v, result cycle = Panic v)
      /\ List.length (starts (trace cycle)) = 1%nat
      /\ List.length (ends (trace cycle)) = 1%nat)
  /\ (accepts m r = false -> starts (trace cycle) = [] /\ ends (trace cycle) = []).
Proof.
  split; [|split].
  - intros Hacc.
    cycle_facts Hacc.
    exists chosenTracer, (extracted m r), (spanNameFormatter m (operation m) r), startOptions.
    split; [exact Hs | exact He].
  - intros Hacc Hpanics.
    cycle_facts Hacc.
    rewrite Hs, He. split; [|now split].
    destruct (Hpanics (Http.snoopWrap w) (Http.WithContext (wrapped r) ctx) pp) as [v Hv].
    destruct (Hp v Hv) as [v' ->]. exists v'. apply Hres.
  - intros Hacc. unfold cycle. rewrite (serveHTTP_rejected Hacc). unfold trace. simpl.
    destruct (filterEvents_silent _ (filterTrace_filterEvents (filters m) 0 r))
      as (F1 & F2 & _).
    now split.
Qed.

(** C3: when some filter returns false on the request, the filters were
    called in registration order up to the first one that returned false,
    and the cycle returned there: its trace holds these filter calls and
    nothing else (no span, no wrapper, no call of the downstream handler,
    no write, no metric), and no labeler was created. *)
Theorem C3_rejected_request_returns_immediately :
  accepts m r = false ->
  exists (k : nat) (f : Filter),
    nth_error (filters m) k = Some f
    /\ f r = false
    /\ (forall j g, (j < k)%nat -> nth_error (filters m) j = Some g -> g r = true)
    /\ cycle = (Normal tt, tick W,
                map (fun j => EvFilter j r true) (seq 0 k) ++ [EvFilter k r false])
    /\ forallb filterEvent (trace cycle) = true
    /\ starts (trace cycle) = []
    /\ nexts (trace cycle) = []
    /\ recorded (trace cycle) = [].
Proof.
  intros Hacc.
  destruct (filterTrace_rejected (filters m) 0 Hacc) as (k & f & Hk & Hf & Hbefore & Htr).
  exists k, f. split; [exact Hk|]. split; [exact Hf|]. split; [exact Hbefore|].
  unfold cycle. rewrite (serveHTTP_rejected Hacc). unfold trace. cbn [snd].
  destruct (filterEvents_silent _ (filterTrace_filterEvents (filters m) 0 r))
    as (F1 & F2 & F3 & F4 & F5).
  split; [now rewrite Htr|].
  split; [apply filterTrace_filterEvents|].
  now repeat split.
Qed.

(** C4: for an accepted request whose extracted context carries a valid
    remote span context [sc], the one [tracer.Start] call receives the
    extracted context; under a public-endpoint configuration (the static
    flag, or the predicate on the request with the extracted context) its
    options ask for a new root and carry exactly one link, to [sc]; under a
    non-public configuration they ask for no new root and carry no link,
    so the span is a child of the extracted context. *)
Theorem C4_public_endpoint_links_the_remote_context :
  accepts m r = true ->
  Trace.IsValid (SpanContextFromContext (extracted m r)) = true ->
  Trace.IsRemote (SpanContextFromContext (extracted m r)) = true ->
  exists t name opts,
    starts (trace cycle) = [(t, extracted m r, name, opts)]
    /\ ((publicEndpoint m = true
         \/ exists fn, publicEndpointFn m = Some fn
                       /\ fn (Http.WithContext r (extracted m r)) = true) ->
        newRoot opts = true
        /\ links opts = [Trace.mkLink (SpanContextFromContext (extracted m r))])
    /\ (publicEndpoint m = false ->
        (publicEndpointFn m = None
         \/ exists fn, publicEndpointFn m = Some fn
                       /\ fn (Http.WithContext r (extracted m r)) = false) ->
        newRoot opts = false /\ links opts = []).
Proof.
  intros Hacc Hvalid Hremote.
  cycle_facts Hacc.
  exists chosenTracer, (spanNameFormatter m (operation m) r), startOptions.
  split; [exact Hs|]. rewrite startOptions_eq, Hvalid, Hremote. split.
  - intros Hpub. rewrite (isPublic_true Hpub).
    destruct (GoTime.IsZero (StartTimeFromContext (extracted m r))); now split.
  - intros H0 Hfn. rewrite (isPublic_false H0 Hfn).
    destruct (GoTime.IsZero (StartTimeFromContext (extracted m r))); now split.
Qed.

(** C5: the tracer handed to the one [tracer.Start] call of an accepted
    request is the handler's own when it has one; otherwise the tracer of
    the provider of the span found in the inbound request context, when
    that span is valid; otherwise the tracer of the process-wide
    provider. *)
Theorem C5_tracer_is_chosen_in_three_tiers :
  accepts m r = true ->
  exists t ctx name opts,
    starts (trace cycle) = [(t, ctx, name, opts)]
    /\ (forall t0, tracer m = Some t0 -> t = t0)
    /\ (tracer m = None ->
        Trace.IsValid (Trace.spanContext (SpanFromContext (Http.Context r))) = true ->
        t = newTracer Version (Trace.tracerProvider (SpanFromContext (Http.Context r))))
    /\ (tracer m = None ->
        Trace.IsValid (Trace.spanContext (SpanFromContext (Http.Context r))) = false ->
        t = newTracer Version (GetTracerProvider (otel W))).
Proof.
  intros Hacc.
  cycle_facts Hacc.
  exists chosenTracer, (extracted m r), (spanNameFormatter m (operation m) r), startOptions.
  split; [exact Hs|]. unfold chosenTracer. split; [|split].
  - intros t0 ->. reflexivity.
  - intros -> ->. reflexivity.
  - intros -> ->. reflexivity.
Qed.

(** C6: with [T] the start time carried by the extracted context, [entry]
    the clock reading taken on entry and [now] the reading taken when the
    elapsed time is computed: when [T] is not the zero time, the span is
    started with timestamp [T] and the elapsed time recorded is
    [float64(now - T) / float64(time.Millisecond)]; when [T] is the zero
    time no timestamp is given and the elapsed time recorded is
    [float64(now - entry) / float64(time.Millisecond)]. *)
Theorem C6_start_time_override_is_the_timer_origin :
  accepts m r = true ->
  exists t name opts,
    starts (trace cycle) = [(t, extracted m r, name, opts)]
    /\ (GoTime.IsZero (StartTimeFromContext (extracted m r)) = false ->
        timestamp opts = Some (StartTimeFromContext (extracted m r))
        /\ (result cycle = Normal tt ->
            exists ctx md,
              recorded (trace cycle) = [(ctx, md)]
              /\ Semconv.ElapsedTime (Semconv.Data md)
                 = (GoTime.float64
                      (GoTime.Sub (clock W (S (ticks W)))
                                  (StartTimeFromContext (extracted m r)))
                    / GoTime.float64 GoTime.Millisecond)%float))
    /\ (GoTime.IsZero (StartTimeFromContext (extracted m r)) = true ->
        timestamp opts = None
        /\ (result cycle = Normal tt ->
            exists ctx md,
              recorded (trace cycle) = [(ctx, md)]
              /\ Semconv.ElapsedTime (Semconv.Data md)
                 = (GoTime.float64
                      (GoTime.Sub (clock W (S (ticks W))) (clock W (ticks W)))
                    / GoTime.float64 GoTime.Millisecond)%float)).
Proof.
  intros Hacc.
  cycle_facts Hacc.
  exists chosenTracer, (spanNameFormatter m (operation m) r), startOptions.
  split; [exact Hs|].
  rewrite startOptions_eq.
  split; intros HZ; rewrite HZ; (split;
    [ destruct (isPublic m r);
      destruct (Trace.IsValid (SpanContextFromContext (extracted m r))
                && Trace.IsRemote (SpanContextFromContext (extracted m r)));
      reflexivity
    | intros Hret; destruct hres as [st|v];
      [ destruct Hres as (_ & _ & Hrec & _);
        exists ctx, (cycleMetrics l st Wh); split; [exact Hrec|];
        unfold cycleMetrics, timerOrigin; cbn [Semconv.ElapsedTime Semconv.Data];
        rewrite HZ; reflexivity
      | destruct Hres as (Hr & _); rewrite Hr in Hret; discriminate ] ]).
Qed.

(** C7: when the cycle of an accepted request returns, the additional
    attributes of the one measurement it records are the entries of the
    labeler bound in the context handed downstream, as the store holds
    them at the end of the cycle, followed by the output of the
    metric-attribute function on the request; the entries of that labeler
    are those it had on entry followed by the additions of the downstream
    handler, in order; nothing is removed from either list. *)
Theorem C7_additional_attributes_are_labeler_then_function :
  accepts m r = true ->
  result cycle = Normal tt ->
  exists ctx md l,
    recorded (trace cycle) = [(ctx, md)]
    /\ nexts (trace cycle) = [(Http.snoopWrap w, Http.WithContext (wrapped r) ctx, pp)]
    /\ GoContext.Value ctx GoContext.labelerContextKey = Some (GoContext.anyLabeler l)
    /\ Semconv.AdditionalAttributes (Semconv.Attributes md)
       = nth l (labelers (world cycle)) [] ++ metricAttributesFromRequest m (wrapped r)
    /\ ((l < List.length (labelers (world cycle)))%nat ->
        nth l (labelers (world cycle)) []
        = nth l (labelers W) []
          ++ addedLabels
               (fst (next (Http.snoopWrap w) (Http.WithContext (wrapped r) ctx) pp))).
Proof.
  intros Hacc Hret.
  cycle_facts Hacc.
  destruct hres as [st|v].
  - destruct Hres as (_ & Hw & Hrec & _).
    exists ctx, (cycleMetrics l st Wh), l.
    split; [exact Hrec|]. split; [exact Hn|]. split; [exact Hb|].
    rewrite Hw. unfold tick. cbn [labelers]. split; [reflexivity|].
    intros Hlt. apply (Hl st eq_refl Hlt).
  - destruct Hres as (Hr & _). rewrite Hr in Hret. discriminate.
Qed.

(** C8: the status mapping gives [Error] for every code from 500 up and
    [Unset] for every code below 500, so [Error] for 503 and [Unset] for
    404; and when the cycle of an accepted request returns, the one
    [span.SetStatus] call carries the mapping of the status code of the
    response writer wrapper, the code the recorded measurement carries. *)
Theorem C8_span_status_follows_the_status_code :
  (forall code, 500 <= code -> Semconv.Status code = Codes.Error)
  /\ (forall code, code < 500 -> Semconv.Status code = Codes.Unset)
  /\ Semconv.Status 503 = Codes.Error
  /\ Semconv.Status 404 = Codes.Unset
  /\ (accepts m r = true ->
      result cycle = Normal tt ->
      exists ctx md,
        recorded (trace cycle) = [(ctx, md)]
        /\ statuses (trace cycle)
           = [(snd started,
               Semconv.Status (Semconv.MetricStatusCode (Semconv.Attributes md)))]).
Proof.
  split; [|split; [|split; [|split]]].
  - intros code H. unfold Semconv.Status.
    destruct (500 <=? code) eqn:E; [reflexivity|]. apply Z.leb_gt in E. lia.
  - intros code H. unfold Semconv.Status.
    destruct (500 <=? code) eqn:E; [|reflexivity]. apply Z.leb_le in E. lia.
  - reflexivity.
  - reflexivity.
  - intros Hacc Hret.
    cycle_facts Hacc.
    destruct hres as [st|v].
    + destruct Hres as (_ & _ & Hrec & Hst & _).
      exists ctx, (cycleMetrics l st Wh). split; [exact Hrec | exact Hst].
    + destruct Hres as (Hr & _). rewrite Hr in Hret. discriminate.
Qed.

(** The options of the one [tracer.Start] call of an accepted request,
    written out; no span kind is among them. *)
Lemma start_call_options :
  accepts m r = true ->
  exists t name opts,
    starts (trace cycle) = [(t, extracted m r, name, opts)]
    /\ opts
       = [Trace.WithAttributes (Semconv.RequestTraceAttrs (semconv m) (server m) r)]
         ++ (if isPublic m r
             then Trace.WithNewRoot
                  :: (if Trace.IsValid (SpanContextFromContext (extracted m r))
                         && Trace.IsRemote (SpanContextFromContext (extracted m r))
                      then [Trace.WithLinks
                              [Trace.mkLink (SpanContextFromContext (extracted m r))]]
                      else [])
             else [])
         ++ (if GoTime.IsZero (StartTimeFromContext (extracted m r))
             then []
             else [Trace.WithTimestamp (StartTimeFromContext (extracted m r))])
    /\ spanKinds opts = [].
Proof.
  intros Hacc.
  cycle_facts Hacc.
  exists chosenTracer, (spanNameFormatter m (operation m) r), startOptions.
  split; [exact Hs|]. split; [apply startOptions_eq|].
  rewrite startOptions_eq.
  destruct (isPublic m r);
    destruct (Trace.IsValid (SpanContextFromContext (extracted m r))
              && Trace.IsRemote (SpanContextFromContext (extracted m r)));
    destruct (GoTime.IsZero (StartTimeFromContext (extracted m r))); reflexivity.
Qed.

End Cycle.

(** ** The start-time carrier *)

Lemma Value_unbound (ctx : GoContext.Context) (k : GoContext.Key) :
  (forall v, ~ In (k, v) ctx) -> GoContext.Value ctx k = None.
Proof.
  induction ctx as [|[k' v'] ctx IH]; intros H; [reflexivity|].
  simpl. destruct (GoContext.key_eqb k k') eqn:E.
  - exfalso. apply (H v'). left. f_equal.
    destruct k, k'; try discriminate E; try reflexivity.
    simpl in E. apply Nat.eqb_eq in E. now subst.
  - apply IH. intros v Hin. apply (H v). now right.
Qed.

(** C9: reading the start time from a context just written with [T] gives
    [T]; after a second write of [T'] further down the same chain the read
    gives [T'], the first value being shadowed; and on a chain that holds
    no value under the carrier's key the read gives the zero time. *)
Theorem C9_start_time_carrier_last_write_wins :
  (forall ctx T, StartTimeFromContext (ContextWithStartTime ctx T) = T)
  /\ (forall ctx mid T T',
        StartTimeFromContext
          (ContextWithStartTime (mid ++ ContextWithStartTime ctx T) T') = T')
  /\ (forall ctx,
        (forall v, ~ In (GoContext.startTimeKey, v) ctx) ->
        StartTimeFromContext ctx = GoTime.zero)
  /\ StartTimeFromContext GoContext.Background = GoTime.zero.
Proof.
  split; [|split; [|split]]; try reflexivity.
  intros ctx H. unfold StartTimeFromContext.
  now rewrite (Value_unbound ctx GoContext.startTimeKey H).
Qed.

(** ** The configured span-start options *)

Lemma applyOptions_app (a b : list Option) (c : config) :
  applyOptions (a ++ b) c = applyOptions b (applyOptions a c).
Proof. unfold applyOptions. apply fold_left_app. Qed.

Lemma newConfig_SpanStartOptions (Version : string) (G : Globals) (opts : list Option) :
  SpanStartOptions (newConfig Version G opts)
  = SpanStartOptions
      (applyOptions opts
         (mkConfig "" None None (GetTextMapPropagator G) [] false None false false
            [] None None nilSpanNameFormatter None (GetMeterProvider G))).
Proof.
  unfold newConfig. cbv zeta.
  match goal with |- context [applyOptions opts ?c0] => generalize (applyOptions opts c0) end.
  intros c. destruct (TracerProvider c); reflexivity.
Qed.

(** C10: [configure] stores the configured span-start options in the
    handler: a handler built by [NewMiddleware] holds the default
    server span-kind option, followed by what [WithSpanOptions] added;
    [serveHTTP] never reads the field: a cycle is the same whatever the
    field holds, and the options of its [tracer.Start] call are the request
    trace attributes, the new-root option and the link of a public
    endpoint, and the timestamp of a carried start time, with no span kind
    among them. *)
Theorem C10_span_start_options_are_stored_but_never_passed :
  forall (Version : string)
         (tracerStart : Trace.Tracer -> GoContext.Context -> string ->
                        list Trace.SpanStartOption -> GoContext.Context * Trace.Span)
         (NewHTTPServer : option Metric.Meter -> Semconv.HTTPServer),
    (forall m0 c, spanStartOptions (configure NewHTTPServer m0 c) = SpanStartOptions c)
    /\ (forall G op,
          spanStartOptions (middlewareHandler Version NewHTTPServer G op [])
          = [Trace.WithSpanKind Trace.SpanKindServer])
    /\ (forall G op opts so,
          spanStartOptions
            (middlewareHandler Version NewHTTPServer G op (opts ++ [WithSpanOptions so]))
          = spanStartOptions (middlewareHandler Version NewHTTPServer G op opts) ++ so)
    /\ (forall m so w r next pp W,
          cycle Version tracerStart (withSpanStartOptions m so) w r next pp W
          = cycle Version tracerStart m w r next pp W)
    /\ (forall m w r next pp W,
          accepts m r = true ->
          exists t name opts,
            starts (trace (cycle Version tracerStart m w r next pp W))
            = [(t, extracted m r, name, opts)]
            /\ opts
               = [Trace.WithAttributes
                    (Semconv.RequestTraceAttrs (semconv m) (server m) r)]
                 ++ (if isPublic m r
                     then Trace.WithNewRoot
                          :: (if Trace.IsValid (SpanContextFromContext (extracted m r))
                                 && Trace.IsRemote (SpanContextFromContext (extracted m r))
                              then [Trace.WithLinks
                                      [Trace.mkLink
                                         (SpanContextFromContext (extracted m r))]]
                              else [])
                     else [])
                 ++ (if GoTime.IsZero (StartTimeFromContext (extracted m r))
                     then []
                     else [Trace.WithTimestamp (StartTimeFromContext (extracted m r))])
            /\ spanKinds opts = []).
Proof.
  intros Version tracerStart NewHTTPServer.
  split; [|split; [|split; [|split]]].
  - reflexivity.
  - intros G op. unfold middlewareHandler, configure. cbv zeta. cbn [spanStartOptions].
    rewrite newConfig_SpanStartOptions. reflexivity.
  - intros G op opts so. unfold middlewareHandler, configure. cbv zeta.
    cbn [spanStartOptions]. rewrite !newConfig_SpanStartOptions.
    rewrite app_assoc, applyOptions_app. reflexivity.
  - reflexivity.
  - intros m w r next pp W Hacc.
    exact (start_call_options Version tracerStart m w r next pp W Hacc).
Qed.

(** ** The claims at work on the concrete setting *)

(** A rejected request: the third filter is never called. *)
Example rejected_cycle_trace :
  trace (Example.serve Example.filtered Example.request Example.okHandler)
  = [EvFilter 0 Example.request true; EvFilter 1 Example.request false].
Proof. reflexivity. Qed.

(** The labels of the handler come first, in the order it added them,
    then those of the metric-attribute function; the key ["a"] occurs
    three times. *)
Example additional_attributes_keep_duplicates :
  map (fun cm => Semconv.AdditionalAttributes (Semconv.Attributes (snd cm)))
      (recorded (trace (Example.serve Example.plain Example.request Example.okHandler)))
  = [[Example.label "a" 1; Example.label "a" 2; Example.label "a" 3; Example.label "b" 4]].
Proof. reflexivity. Qed.

(** The handler wrote the header 503: the span status is [Error]. *)
Example status_503_is_error :
  map snd (statuses (trace (Example.serve Example.plain Example.request Example.okHandler)))
  = [Codes.Error].
Proof. reflexivity. Qed.

(** The extracted context carries a valid span, the inbound one none: the
    tracer comes from the process-wide provider. *)
Example tracer_ignores_the_extracted_span :
  Trace.IsValid (SpanContextFromContext (extracted Example.plain Example.request)) = true
  /\ map (fun s => Trace.provider (fst (fst (fst s))))
         (starts (trace (Example.serve Example.plain Example.request Example.okHandler)))
     = [GetTracerProvider Example.globals].
Proof. split; reflexivity. Qed.

(** C1, as first stated, fails: the handler below panics on an accepted
    request, the panic goes on to the caller, the span was ended, and no
    metric was recorded. *)
Lemma C1_counterexample_panic_drops_the_metrics :
  accepts Example.plain Example.request = true
  /\ (forall w r pp, snd (Example.panicHandler w r pp) = Panics "boom")
  /\ result (Example.serve Example.plain Example.request Example.panicHandler)
     = Panic "boom"
  /\ List.length
       (ends (trace (Example.serve Example.plain Example.request Example.panicHandler)))
     = 1%nat
  /\ recorded (trace (Example.serve Example.plain Example.request Example.panicHandler))
     = [].
Proof. repeat split. Qed.

Lemma C1_witness :
  accepts Example.plain Example.request = true
  /\ (result (Example.serve Example.plain Example.request Example.okHandler) = Normal tt ->
      exists ctx md pre,
        recorded (trace (Example.serve Example.plain Example.request Example.okHandler))
        = [(ctx, md)]
        /\ trace (Example.serve Example.plain Example.request Example.okHandler)
           = pre ++ [EvRecordMetrics ctx md;
                     EvEnd (snd (started Example.version Example.sdkStart Example.plain
                                   Example.request Example.world0))]).
Proof.
  split; [reflexivity|].
  exact (proj1 (C1_metrics_are_recorded_when_the_handler_returns
                  Example.version Example.sdkStart Example.plain (Http.frameworkWriter 0)
                  Example.request Example.okHandler [] Example.world0 eq_refl)).
Defined.

Lemma C2_witness :
  accepts Example.plain Example.request = true
  /\ exists t ctx name opts,
       starts (trace (Example.serve Example.plain Example.request Example.panicHandler))
       = [(t, ctx, name, opts)]
       /\ ends (trace (Example.serve Example.plain Example.request Example.panicHandler))
          = [snd (Example.sdkStart t ctx name opts)].
Proof.
  split; [reflexivity|].
  exact (proj1 (C2_one_span_started_and_ended
                  Example.version Example.sdkStart Example.plain (Http.frameworkWriter 0)
                  Example.request Example.panicHandler [] Example.world0) eq_refl).
Defined.

Lemma C3_witness :
  accepts Example.filtered Example.request = false
  /\ exists (k : nat) (f : Filter),
       nth_error (filters Example.filtered) k = Some f
       /\ f Example.request = false
       /\ (forall j g, (j < k)%nat -> nth_error (filters Example.filtered) j = Some g ->
                       g Example.request = true)
       /\ Example.serve Example.filtered Example.request Example.okHandler
          = (Normal tt, tick Example.world0,
             map (fun j => EvFilter j Example.request true) (seq 0 k)
             ++ [EvFilter k Example.request false])
       /\ forallb filterEvent
            (trace (Example.serve Example.filtered Example.request Example.okHandler))
          = true
       /\ starts (trace (Example.serve Example.filtered Example.request Example.okHandler))
          = []
       /\ nexts (trace (Example.serve Example.filtered Example.request Example.okHandler))
          = []
       /\ recorded (trace (Example.serve Example.filtered Example.request Example.okHandler))
          = [].
Proof.
  split; [reflexivity|].
  exact (C3_rejected_request_returns_immediately
           Example.version Example.sdkStart Example.filtered (Http.frameworkWriter 0)
           Example.request Example.okHandler [] Example.world0 eq_refl).
Defined.

Lemma C4_witness :
  accepts Example.public Example.request = true
  /\ Trace.IsValid (SpanContextFromContext (extracted Example.public Example.request)) = true
  /\ Trace.IsRemote (SpanContextFromContext (extracted Example.public Example.request)) = true
  /\ publicEndpoint Example.public = true
  /\ exists t name opts,
       starts (trace (Example.serve Example.public Example.request Example.okHandler))
       = [(t, extracted Example.public Example.request, name, opts)]
       /\ newRoot opts = true
       /\ links opts = [Trace.mkLink Example.remote].
Proof.
  split; [reflexivity|]. split; [reflexivity|]. split; [reflexivity|].
  split; [reflexivity|].
  destruct (C4_public_endpoint_links_the_remote_context
              Example.version Example.sdkStart Example.public (Http.frameworkWriter 0)
              Example.request Example.okHandler [] Example.world0 eq_refl eq_refl eq_refl)
    as (t & name & opts & Hs & Hpub & _).
  exists t, name, opts. split; [exact Hs|]. exact (Hpub (or_introl eq_refl)).
Defined.

Lemma C5_witness :
  accepts Example.plain Example.request = true
  /\ tracer Example.plain = None
  /\ Trace.IsValid (Trace.spanContext (SpanFromContext (Http.Context Example.request)))
     = false
  /\ exists t ctx name opts,
       starts (trace (Example.serve Example.plain Example.request Example.okHandler))
       = [(t, ctx, name, opts)]
       /\ t = newTracer Example.version (Trace.sdkTracerProvider 0).
Proof.
  split; [reflexivity|]. split; [reflexivity|]. split; [reflexivity|].
  destruct (C5_tracer_is_chosen_in_three_tiers
              Example.version Example.sdkStart Example.plain (Http.frameworkWriter 0)
              Example.request Example.okHandler [] Example.world0 eq_refl)
    as (t & ctx & name & opts & Hs & _ & _ & H3).
  exists t, ctx, name, opts. split; [exact Hs|]. exact (H3 eq_refl eq_refl).
Defined.

Lemma C6_witness :
  accepts Example.plain Example.timedRequest = true
  /\ GoTime.IsZero (StartTimeFromContext (extracted Example.plain Example.timedRequest))
     = false
  /\ result (Example.serve Example.plain Example.timedRequest Example.okHandler) = Normal tt
  /\ exists t name opts ctx md,
       starts (trace (Example.serve Example.plain Example.timedRequest Example.okHandler))
       = [(t, extracted Example.plain Example.timedRequest, name, opts)]
       /\ timestamp opts = Some Example.startTime
       /\ recorded (trace (Example.serve Example.plain Example.timedRequest
                             Example.okHandler))
          = [(ctx, md)]
       /\ Semconv.ElapsedTime (Semconv.Data md) = 350%float.
Proof.
  split; [reflexivity|]. split; [reflexivity|]. split; [reflexivity|].
  destruct (C6_start_time_override_is_the_timer_origin
              Example.version Example.sdkStart Example.plain (Http.frameworkWriter 0)
              Example.timedRequest Example.okHandler [] Example.world0 eq_refl)
    as (t & name & opts & Hs & Hover & _).
  destruct (Hover eq_refl) as (Hts & Hel).
  destruct (Hel eq_refl) as (ctx & md & Hrec & Hms).
  exists t, name, opts, ctx, md.
  split; [exact Hs|]. split; [exact Hts|]. split; [exact Hrec|].
  rewrite Hms. reflexivity.
Defined.

Lemma C7_witness :
  accepts Example.plain Example.request = true
  /\ result (Example.serve Example.plain Example.request Example.okHandler) = Normal tt
  /\ exists ctx md l,
       recorded (trace (Example.serve Example.plain Example.request Example.okHandler))
       = [(ctx, md)]
       /\ GoContext.Value ctx GoContext.labelerContextKey = Some (GoContext.anyLabeler l)
       /\ Semconv.AdditionalAttributes (Semconv.Attributes md)
          = nth l (labelers (world (Example.serve Example.plain Example.request
                                      Example.okHandler))) []
            ++ [Example.label "a" 3; Example.label "b" 4].
Proof.
  split; [reflexivity|]. split; [reflexivity|].
  destruct (C7_additional_attributes_are_labeler_then_function
              Example.version Example.sdkStart Example.plain (Http.frameworkWriter 0)
              Example.request Example.okHandler [] Example.world0 eq_refl eq_refl)
    as (ctx & md & l & Hrec & _ & Hb & Hattrs & _).
  exists ctx, md, l. split; [exact Hrec|]. split; [exact Hb | exact Hattrs].
Defined.

Lemma C8_witness :
  accepts Example.plain Example.request = true
  /\ result (Example.serve Example.plain Example.request Example.okHandler) = Normal tt
  /\ exists ctx md,
       recorded (trace (Example.serve Example.plain Example.request Example.okHandler))
       = [(ctx, md)]
       /\ statuses (trace (Example.serve Example.plain Example.request Example.okHandler))
          = [(snd (started Example.version Example.sdkStart Example.plain Example.request
                     Example.world0),
              Semconv.Status (Semconv.MetricStatusCode (Semconv.Attributes md)))].
Proof.
  split; [reflexivity|]. split; [reflexivity|].
  exact (proj2 (proj2 (proj2 (proj2
           (C8_span_status_follows_the_status_code
              Example.version Example.sdkStart Example.plain (Http.frameworkWriter 0)
              Example.request Example.okHandler [] Example.world0))))
           eq_refl eq_refl).
Defined.

Lemma C9_witness :
  (forall v, ~ In (GoContext.startTimeKey, v)
                  [(GoContext.currentSpanKey, GoContext.anySpan Trace.noopSpan)])
  /\ StartTimeFromContext [(GoContext.currentSpanKey, GoContext.anySpan Trace.noopSpan)]
     = GoTime.zero.
Proof.
  assert (H : forall v, ~ In (GoContext.startTimeKey, v)
                             [(GoContext.currentSpanKey, GoContext.anySpan Trace.noopSpan)]).
  { intros v [E|[]]. discriminate E. }
  split; [exact H|].
  exact (proj1 (proj2 (proj2 C9_start_time_carrier_last_write_wins)) _ H).
Defined.

Lemma C10_witness :
  accepts Example.plain Example.request = true
  /\ spanStartOptions Example.plain = [Trace.WithSpanKind Trace.SpanKindServer]
  /\ exists t name opts,
       starts (trace (Example.serve Example.plain Example.request Example.okHandler))
       = [(t, extracted Example.plain Example.request, name, opts)]
       /\ spanKinds opts = [].
Proof.
  split; [reflexivity|]. split; [reflexivity|].
  destruct (proj2 (proj2 (proj2 (proj2
              (C10_span_start_options_are_stored_but_never_passed
                 Example.version Example.sdkStart Example.httpServer))))
              Example.plain (Http.frameworkWriter 0) Example.request Example.okHandler
              [] Example.world0 eq_refl)
    as (t & name & opts & Hs & _ & Hk).
  exists t, name, opts. split; [exact Hs | exact Hk].
Defined.

(** * Further properties *)

(** ** The whole run of an accepted cycle *)

Lemma initialWrappers_quiet (m : handler) (w : Http.ResponseWriter) (r : Http.Request)
  (span : Trace.Span) :
  quietWrappers (initialWrappers m w r span).
Proof.
  split; intros n W0; simpl; unfold readRecordFunc, writeRecordFunc.
  - destruct (readEvent m); eexists; split; reflexivity.
  - destruct (writeEvent m); eexists; split; reflexivity.
Qed.

Lemma LabelerFromContext_handed (ctx1 : GoContext.Context) (W : World) :
  LabelerFromContext ctx1 (tick W)
  = (Normal (handedLabeler ctx1 W, bindsLabeler ctx1), handedWorld ctx1 W, []).
Proof.
  unfold LabelerFromContext, handedLabeler, bindsLabeler, handedWorld, bindsLabeler.
  destruct (GoContext.Value ctx1 GoContext.labelerContextKey) as [[t|s|l|z]|];
    reflexivity.
Qed.

Lemma handedContext_binds (ctx1 : GoContext.Context) (W : World) :
  GoContext.Value (handedContext ctx1 W) GoContext.labelerContextKey
  = Some (GoContext.anyLabeler (handedLabeler ctx1 W)).
Proof.
  unfold handedContext, handedLabeler, bindsLabeler.
  destruct (GoContext.Value ctx1 GoContext.labelerContextKey) as [[t|s|l|z]|] eqn:E;
    try reflexivity.
  exact E.
Qed.


Lemma addEvents_app (a b : list Event) : addEvents (a ++ b) = addEvents a ++ addEvents b.
Proof. induction a as [|e a IH]; [reflexivity|]. destruct e; simpl; now rewrite IH. Qed.

Lemma filterEvents_unseen (tr : list Event) :
  forallb filterEvent tr = true -> attributeSets tr = [] /\ addEvents tr = [].
Proof.
  induction tr as [|e tr IH]; [now split|].
  simpl. intros H. apply andb_prop in H. destruct H as [He Htr].
  destruct e; try discriminate He; simpl; auto.
Qed.


Section Run.

Variable Version : string.
Variable tracerStart :
  Trace.Tracer -> GoContext.Context -> string -> list Trace.SpanStartOption ->
  GoContext.Context * Trace.Span.
Variables (m : handler) (w : Http.ResponseWriter) (r : Http.Request).
Variables (next : HandlerFunc) (pp : PathParams) (W : World).

Local Abbreviation chosenTracer := (chosenTracer Version m r W).
Local Abbreviation startOptions := (startOptions m r).
Local Abbreviation timerOrigin := (timerOrigin m r W).
Local Abbreviation started := (started Version tracerStart m r W).
Local Abbreviation cycle := (cycle Version tracerStart m w r next pp W).
Local Abbreviation prologue := (prologue Version m w r pp W).
Local Abbreviation cycleMetrics := (cycleMetrics m r W).
Local Abbreviation epilogue := (epilogue Version tracerStart m r W).
Local Abbreviation ctx2 := (handedContext (fst started) W).
Local Abbreviation lab := (handedLabeler (fst started) W).

(** The cycle of an accepted request in terms of the one call of the
    downstream handler it makes. *)
Lemma cycle_run :
  accepts m r = true ->
  exists (hres : Result Wrappers) (Wh : World) (htr : list Event),
    call next (Http.snoopWrap w) (Http.WithContext (wrapped r) ctx2) pp
         (initialWrappers m w r (snd started)) (handedWorld (fst started) W)
    = (hres, Wh, EvNext (Http.snoopWrap w) (Http.WithContext (wrapped r) ctx2) pp :: htr)
    /\ forallb handlerEvent htr = true
    /\ sameClock (tick W) Wh
    /\ cycle
       = match hres with
         | Normal st => (Normal tt, tick Wh, prologue ctx2 ++ htr ++ epilogue ctx2 lab st Wh)
         | Panic v => (Panic v, Wh, prologue ctx2 ++ htr ++ [EvEnd (snd started)])
         end.
Proof.
  intros Hacc.
  destruct started as [ctx1 span] eqn:Est. cbn [fst snd].
  pose proof (LabelerFromContext_handed ctx1 W) as El.
  pose proof (initialWrappers_quiet m w r span) as Hq.
  destruct (call_spec next (Http.snoopWrap w)
              (Http.WithContext (wrapped r) (handedContext ctx1 W)) pp _
              (handedWorld ctx1 W) Hq)
    as (hres & Wh & htr & Ec & Hh & Ch & _).
  assert (Cl : sameClock (tick W) (handedWorld ctx1 W)).
  { unfold handedWorld. destruct (bindsLabeler ctx1); now repeat split. }
  exists hres, Wh, htr.
  split; [exact Ec|]. split; [exact Hh|].
  split; [eapply sameClock_trans; eassumption|].
  unfold prologue, epilogue, cycleMetrics. rewrite Est. simpl snd.
  unfold started, startOptions, chosenTracer, isPublic, extracted in Est.
  unfold timerOrigin, startOptions, chosenTracer, isPublic, extracted.
  unfold tick in El.
  unfold cycle, run, serveHTTP, bind at 1 2. unfold Now at 1.
  rewrite runFilters_run. fold (accepts m r). rewrite Hacc. simpl negb. cbv iota.
  destruct (GoTime.IsZero
              (StartTimeFromContext
                 (Propagation.Extract (propagators m) (Http.Context r) (Http.header r))))
    eqn:EZ; simpl negb in *; cbv iota in *;
  (destruct (tracer m) as [t|];
   [| destruct (Trace.IsValid (Trace.spanContext (SpanFromContext (Http.Context r))))]);
  unfold bind, Start, defer, emit, ret, getGlobals, InternalRequest.NewBodyWrapper,
    InternalRequest.NewRespWriterWrapper; simpl;
  match goal with
  | |- context [tracerStart ?a ?b ?c ?d] =>
      replace (tracerStart a b c d) with (ctx1, span) by (symmetry; exact Est)
  end;
  rewrite El; cbv beta iota;
  match goal with
  | |- context [call ?a ?b ?c ?d ?e ?f] =>
      replace (call a b c d e f)
        with (hres, Wh,
              EvNext (Http.snoopWrap w)
                (Http.WithContext (wrapped r) (handedContext ctx1 W)) pp :: htr)
        by (symmetry; exact Ec)
  end;
  (assert (Hclock : clock Wh = clock W /\ ticks Wh = S (ticks W))
     by (destruct Cl as (c1 & c2 & _), Ch as (c3 & c4 & _); split; simpl in *; congruence));
  destruct Hclock as [Hc1 Hc2];
  (destruct hres as [[bw rww]|v]; cbv beta iota; unfold tick; simpl;
   rewrite ?Hc1, ?Hc2, <- ?app_assoc; simpl; rewrite ?app_nil_r; reflexivity).
Qed.

Lemma filterTrace_accepted (fs : list Filter) :
  forall i : nat,
    forallb (fun f => f r) fs = true ->
    filterTrace fs i r = map (fun j => EvFilter j r true) (seq i (List.length fs)).
Proof.
  induction fs as [|f fs IH]; intros i H; [reflexivity|].
  simpl in H. apply andb_prop in H. destruct H as [Hf Hfs].
  simpl. rewrite Hf. now rewrite (IH (S i) Hfs).
Qed.

(** X6: what the downstream handler of an accepted request is called with:
    the [httpsnoop] wrap of the writer, the path parameters as received,
    and a copy of the request with the same method, URL and header, whose
    body is the byte-counting wrapper unless the body was [nil] or
    [http.NoBody], and whose context is the one [tracer.Start] returned,
    with a labeler bound on top only when it bound none; every other value
    of that context is still there. *)
Theorem X6_what_the_downstream_handler_receives :
  accepts m r = true ->
  exists r',
    nexts (trace cycle) = [(Http.snoopWrap w, r', pp)]
    /\ Http.Method r' = Http.Method r
    /\ Http.URL r' = Http.URL r
    /\ Http.header r' = Http.header r
    /\ Http.Body r' = match Http.Body r with
                      | Http.nilBody => Http.nilBody
                      | Http.NoBody => Http.NoBody
                      | b => Http.bodyWrapper b
                      end
    /\ (bindsLabeler (fst started) = true -> Http.Context r' = fst started)
    /\ (bindsLabeler (fst started) = false ->
        Http.Context r'
        = ContextWithLabeler (fst started) (List.length (labelers W)))
    /\ (exists l, GoContext.Value (Http.Context r') GoContext.labelerContextKey
                  = Some (GoContext.anyLabeler l))
    /\ (forall k, GoContext.key_eqb k GoContext.labelerContextKey = false ->
                  GoContext.Value (Http.Context r') k = GoContext.Value (fst started) k).
Proof.
  intros Hacc.
  destruct (cycle_run Hacc) as (hres & Wh & htr & Ec & Hh & Hc & E).
  destruct (filterEvents_silent _ (filterTrace_filterEvents (filters m) 0 r))
    as (_ & _ & _ & _ & F5).
  destruct (handlerEvents_silent _ Hh) as (_ & _ & _ & _ & H5).
  exists (Http.WithContext (wrapped r) ctx2).
  split.
  { rewrite E. destruct hres as [st|v]; unfold trace, prologue, epilogue; cbn [snd];
      rewrite !nexts_app, F5, H5; reflexivity. }
  unfold wrapped.
  split; [destruct (Http.Body r); reflexivity|].
  split; [destruct (Http.Body r); reflexivity|].
  split; [destruct (Http.Body r); reflexivity|].
  split; [destruct (Http.Body r) eqn:Eb; simpl; rewrite ?Eb; reflexivity|].
  assert (Hctx : Http.Context
                   (Http.WithContext
                      match Http.Body r with
                      | Http.nilBody | Http.NoBody => r
                      | _ => Http.setBody r (Http.bodyWrapper (Http.Body r))
                      end ctx2) = ctx2) by reflexivity.
  rewrite Hctx. unfold handedContext, handedLabeler.
  split; [intros ->; reflexivity|].
  split.
  { intros Hb. rewrite Hb. unfold bindsLabeler in Hb. cbn [negb].
    destruct (GoContext.Value (fst started) GoContext.labelerContextKey)
      as [[t|s|l|z]|]; try reflexivity; discriminate Hb. }
  split.
  { exists lab. apply handedContext_binds. }
  intros k Hk. destruct (bindsLabeler (fst started)); cbn [negb]; [reflexivity|].
  unfold ContextWithLabeler, GoContext.WithValue. simpl. now rewrite Hk.
Qed.


(** X8: the order of the calls of an accepted cycle: the filters, all
    accepting, in registration order; [tracer.Start]; the two wrappers and
    the [httpsnoop] wrap; the downstream handler, and what it causes on
    the body, the writer and the span; then, when it returned,
    [SetStatus], [SetAttributes], [RecordMetrics] and last [span.End];
    when it panicked, [span.End] alone. *)
Theorem X8_order_of_the_calls_of_a_cycle :
  accepts m r = true ->
  exists t ctx name opts r' htr tail,
    trace cycle
    = map (fun j => EvFilter j r true) (seq 0 (List.length (filters m)))
      ++ [ EvStart t ctx name opts;
           EvNewBodyWrapper (Http.Body r);
           EvNewRespWriterWrapper w;
           EvSnoopWrap w;
           EvNext (Http.snoopWrap w) r' pp ]
      ++ htr ++ tail
    /\ forallb handlerEvent htr = true
    /\ (result cycle = Normal tt ->
        exists code attrs mctx md,
          tail = [ EvSetStatus (snd (tracerStart t ctx name opts)) code;
                   EvSetAttributes (snd (tracerStart t ctx name opts)) attrs;
                   EvRecordMetrics mctx md;
                   EvEnd (snd (tracerStart t ctx name opts)) ])
    /\ (forall v, result cycle = Panic v ->
                  tail = [EvEnd (snd (tracerStart t ctx name opts))]).
Proof.
  intros Hacc.
  destruct (cycle_run Hacc) as (hres & Wh & htr & Ec & Hh & Hc & E).
  exists chosenTracer, (extracted m r), (spanNameFormatter m (operation m) r),
         startOptions, (Http.WithContext (wrapped r) ctx2), htr.
  rewrite E. destruct hres as [st|v].
  - eexists. split; [|split; [exact Hh|split]].
    + unfold trace, prologue. cbn [snd].
      rewrite (filterTrace_accepted (filters m) 0 Hacc), <- app_assoc. reflexivity.
    + intros _. unfold epilogue. now eexists _, _, _, _.
    + intros v Hv. discriminate Hv.
  - exists [EvEnd (snd started)]. split; [|split; [exact Hh|split]].
    + unfold trace, prologue. cbn [snd].
      rewrite (filterTrace_accepted (filters m) 0 Hacc), <- app_assoc. reflexivity.
    + intros Hn. discriminate Hn.
    + intros v0 _. reflexivity.
Qed.

(** X9: the trust-boundary decision in full: under a public-endpoint
    configuration the [Start] options always ask for a new root, and carry
    a link, to the span context of the extracted context, exactly when
    that span context is valid and remote; under a non-public
    configuration they ask for no new root and carry no link, whatever
    the extracted context holds. *)
Theorem X9_new_root_always_link_only_if_valid_and_remote :
  accepts m r = true ->
  exists t name opts,
    starts (trace cycle) = [(t, extracted m r, name, opts)]
    /\ newRoot opts = isPublic m r
    /\ links opts
       = if isPublic m r
            && Trace.IsValid (SpanContextFromContext (extracted m r))
            && Trace.IsRemote (SpanContextFromContext (extracted m r))
         then [Trace.mkLink (SpanContextFromContext (extracted m r))]
         else [].
Proof.
  intros Hacc.
  destruct (cycle_summary Version tracerStart m w r next pp W Hacc)
    as (l & ctx & hres & Wh & _ & _ & _ & _ & _ & Hs & _).
  cbv zeta in Hs.
  exists chosenTracer, (spanNameFormatter m (operation m) r), startOptions.
  split; [exact Hs|].
  rewrite (startOptions_eq m r).
  destruct (isPublic m r);
    destruct (Trace.IsValid (SpanContextFromContext (extracted m r)));
    destruct (Trace.IsRemote (SpanContextFromContext (extracted m r)));
    destruct (GoTime.IsZero (StartTimeFromContext (extracted m r))); now split.
Qed.

(** X11: the metric-attribute function is called on the request as
    [serveHTTP] left it, with its (possibly wrapped) body and its inbound
    context, not the context of the span; when no function is configured
    the additional attributes of the measurement are the labeler's entries
    alone. *)
Theorem X11_metric_attribute_function_and_its_absence :
  accepts m r = true ->
  result cycle = Normal tt ->
  exists ctx md l,
    recorded (trace cycle) = [(ctx, md)]
    /\ GoContext.Value ctx GoContext.labelerContextKey = Some (GoContext.anyLabeler l)
    /\ Http.Context (wrapped r) = Http.Context r
    /\ (forall fn, metricAttributesFn m = Some fn ->
          Semconv.AdditionalAttributes (Semconv.Attributes md)
          = nth l (labelers (world cycle)) [] ++ fn (wrapped r))
    /\ (metricAttributesFn m = None ->
          Semconv.AdditionalAttributes (Semconv.Attributes md)
          = nth l (labelers (world cycle)) []).
Proof.
  intros Hacc Hret.
  destruct (cycle_summary Version tracerStart m w r next pp W Hacc)
    as (l & ctx & hres & Wh & Hb & _ & _ & _ & _ & _ & _ & _ & Hres).
  cbv zeta in Hres. fold cycle in Hres. destruct hres as [st|v].
  - destruct Hres as (_ & Hw & Hrec & _).
    exists ctx, (cycleMetrics l st Wh), l.
    split; [exact Hrec|]. split; [exact Hb|].
    split; [unfold wrapped; destruct (Http.Body r); reflexivity|].
    rewrite Hw. unfold tick. cbn [labelers].
    unfold cycleMetrics, metricAttributesFromRequest.
    cbn [Semconv.AdditionalAttributes Semconv.Attributes].
    split.
    + intros fn ->. reflexivity.
    + intros ->. apply app_nil_r.
  - destruct Hres as (Hr & _). rewrite Hr in Hret. discriminate.
Qed.

End Run.

(** ** The configuration *)

Lemma optionsApplied_last (G : Globals) (opts : list Option) (o : Option) :
  optionsApplied G (opts ++ [o]) = o (optionsApplied G opts).
Proof.
  unfold optionsApplied. rewrite app_assoc, applyOptions_app. reflexivity.
Qed.

(** The handler of [NewMiddleware], field by field. *)
Lemma middlewareHandler_fields (Version : string)
  (NewHTTPServer : option Metric.Meter -> Semconv.HTTPServer)
  (G : Globals) (op : string) (opts : list Option) :
  middlewareHandler Version NewHTTPServer G op opts
  = mkHandler op (ServerName (optionsApplied G opts))
      (match TracerProvider (optionsApplied G opts) with
       | Some tp => Some (newTracer Version tp)
       | None => Tracer (optionsApplied G opts)
       end)
      (Propagators (optionsApplied G opts))
      (SpanStartOptions (optionsApplied G opts))
      (ReadEvent (optionsApplied G opts))
      (WriteEvent (optionsApplied G opts))
      (Filters (optionsApplied G opts))
      (SpanNameFormatter (optionsApplied G opts))
      (PublicEndpoint (optionsApplied G opts))
      (PublicEndpointFn (optionsApplied G opts))
      (MetricAttributesFn (optionsApplied G opts))
      (NewHTTPServer (Some (newMeter Version (MeterProvider (optionsApplied G opts))))).
Proof.
  unfold middlewareHandler, newConfig, configure. cbv zeta.
  fold (optionsApplied G opts).
  destruct (TracerProvider (optionsApplied G opts)); reflexivity.
Qed.

(** What no listed option touches, and what none can undo. *)
Lemma listed_keeps (o : Option) (c : config) :
  listed o ->
  ReadEvent (o c) = ReadEvent c
  /\ WriteEvent (o c) = WriteEvent c
  /\ Tracer (o c) = Tracer c
  /\ (PublicEndpoint c = true -> PublicEndpoint (o c) = true).
Proof. intros H. destruct H; repeat split; auto. Qed.

Lemma listed_all_keep (opts : list Option) :
  Forall listed opts ->
  forall c : config,
    ReadEvent (applyOptions opts c) = ReadEvent c
    /\ WriteEvent (applyOptions opts c) = WriteEvent c
    /\ Tracer (applyOptions opts c) = Tracer c
    /\ (PublicEndpoint c = true -> PublicEndpoint (applyOptions opts c) = true).
Proof.
  induction 1 as [|o opts Ho _ IH]; intros c; [now repeat split|].
  destruct (listed_keeps o c Ho) as (a1 & a2 & a3 & a4).
  destruct (IH (o c)) as (b1 & b2 & b3 & b4).
  change (applyOptions (o :: opts) c) with (applyOptions opts (o c)).
  repeat split; try congruence. auto.
Qed.

Lemma listed_public_endpoint (opts : list Option) :
  Forall listed opts ->
  In WithPublicEndpoint opts ->
  forall c : config, PublicEndpoint (applyOptions opts c) = true.
Proof.
  induction 1 as [|o opts Ho Hopts IH]; intros Hin c; [destruct Hin|].
  change (applyOptions (o :: opts) c) with (applyOptions opts (o c)).
  destruct Hin as [-> | Hin].
  - apply (listed_all_keep opts Hopts). reflexivity.
  - apply IH. exact Hin.
Qed.

Lemma Filters_of_WithFilter (fs : list Filter) :
  forall c : config, Filters (applyOptions (map WithFilter fs) c) = Filters c ++ fs.
Proof.
  induction fs as [|f fs IH]; intros c; [simpl; now rewrite app_nil_r|].
  change (applyOptions (map WithFilter (f :: fs)) c)
    with (applyOptions (map WithFilter fs) (WithFilter f c)).
  rewrite IH. simpl. now rewrite <- app_assoc.
Qed.

(** ** A handler without span events *)

Lemma ioEvents_add_no_events (tr : list Event) :
  forallb ioEvent tr = true -> addEvents tr = [].
Proof.
  induction tr as [|e tr IH]; [reflexivity|].
  simpl. intros H. apply andb_prop in H. destruct H as [He Htr].
  destruct e; try discriminate He; simpl; auto.
Qed.

Lemma runOp_io (r : Http.Request) (op : HandlerOp) (st : Wrappers) (W : World) :
  muteWrappers st ->
  exists res W' tr,
    runOp r op st W = (res, W', tr)
    /\ forallb ioEvent tr = true
    /\ (forall st', res = Normal st' -> muteWrappers st').
Proof.
  intros [Hr Hw]. destruct st as [bw rww]. simpl in Hr, Hw.
  destruct op as [n e|code|n e| |kvs]; simpl.
  - destruct (Http.Body r).
    + eexists _, _, _. split; [reflexivity|]. split; [reflexivity | discriminate].
    + eexists _, _, _. split; [reflexivity|]. split; [reflexivity|].
      intros st' E. inversion E. split; simpl; assumption.
    + eexists _, _, _. split; [reflexivity|]. split; [reflexivity|].
      intros st' E. inversion E. split; simpl; assumption.
    + unfold InternalRequest.Read, bind, emit, ret. destruct e as [e|].
      * eexists _, _, _. split; [reflexivity|]. split; [reflexivity|].
        intros st' E. inversion E. split; simpl; assumption.
      * simpl. rewrite (Hr (InternalRequest.read bw + n) W).
        eexists _, _, _. split; [reflexivity|]. split; [reflexivity|].
        intros st' E. inversion E. split; simpl; assumption.
  - unfold InternalRequest.WriteHeader, bind, emit, ret. simpl.
    eexists _, _, _. split; [reflexivity|]. split; [reflexivity|].
    intros st' E. inversion E.
    destruct (InternalRequest.wroteHeader rww); split; simpl; assumption.
  - unfold InternalRequest.Write, InternalRequest.WriteHeader, bind, emit, ret.
    destruct (InternalRequest.wroteHeader rww) eqn:Ewh; simpl; rewrite ?Ewh; simpl;
      destruct e as [e|]; simpl; rewrite ?(Hw (InternalRequest.written rww + n) W);
      (eexists _, _, _; split; [reflexivity|]; split; [reflexivity|];
       intros st' E; inversion E; split; simpl; assumption).
  - eexists _, _, _. split; [reflexivity|]. split; [reflexivity|].
    intros st' E. inversion E. split; simpl; assumption.
  - unfold bind.
    destruct (LabelerFromContext_run (Http.Context r) W) as (l & found & W' & E & _).
    rewrite E. unfold LabelerAdd, ret. simpl.
    eexists _, _, _. split; [reflexivity|]. split; [reflexivity|].
    intros st' E'. inversion E'. split; simpl; assumption.
Qed.

Lemma runOps_io (r : Http.Request) (ops : list HandlerOp) :
  forall (st : Wrappers) (W : World),
    muteWrappers st ->
    exists res W' tr, runOps r ops st W = (res, W', tr) /\ forallb ioEvent tr = true.
Proof.
  induction ops as [|op ops IH]; intros st W Hm.
  - eexists _, _, _. split; reflexivity.
  - simpl. unfold bind.
    destruct (runOp_io r op st W Hm) as (res & W1 & tr1 & E1 & H1 & M1).
    rewrite E1. destruct res as [st1|v].
    + destruct (IH st1 W1 (M1 _ eq_refl)) as (res2 & W2 & tr2 & E2 & H2).
      rewrite E2. eexists _, _, _. split; [reflexivity|].
      now rewrite forallb_app, H1, H2.
    + eexists _, _, _. split; [reflexivity | exact H1].
Qed.

Lemma call_io (next : HandlerFunc) (w : Http.ResponseWriter) (r : Http.Request)
  (pp : PathParams) (st : Wrappers) (W : World) :
  muteWrappers st ->
  exists res W' tr,
    call next w r pp st W = (res, W', EvNext w r pp :: tr) /\ forallb ioEvent tr = true.
Proof.
  intros Hm. unfold call, bind, emit. destruct (next w r pp) as [ops fin]. simpl.
  destruct (runOps_io r ops st W Hm) as (res & W1 & tr & E & H).
  rewrite E. destruct res as [st1|v].
  - destruct fin as [|v]; simpl; eexists _, _, _;
      (split; [reflexivity | now rewrite app_nil_r]).
  - eexists _, _, _. split; [reflexivity | exact H].
Qed.

Lemma cycle_without_span_events (Version : string)
  (tracerStart : Trace.Tracer -> GoContext.Context -> string ->
                 list Trace.SpanStartOption -> GoContext.Context * Trace.Span)
  (m : handler) (w : Http.ResponseWriter) (r : Http.Request) (next : HandlerFunc)
  (pp : PathParams) (W : World) :
  readEvent m = false ->
  writeEvent m = false ->
  addEvents (trace (cycle Version tracerStart m w r next pp W)) = [].
Proof.
  intros Hr Hw.
  destruct (filterEvents_unseen _ (filterTrace_filterEvents (filters m) 0 r)) as (_ & FA).
  destruct (accepts m r) eqn:Hacc.
  - destruct (cycle_run Version tracerStart m w r next pp W Hacc)
      as (hres & Wh & htr & Ec & _ & _ & E).
    assert (Hm : muteWrappers
                   (initialWrappers m w r (snd (started Version tracerStart m r W)))).
    { split; intros n W0; simpl; unfold readRecordFunc, writeRecordFunc;
        rewrite ?Hr, ?Hw; reflexivity. }
    destruct (call_io next (Http.snoopWrap w)
                (Http.WithContext (wrapped r)
                   (handedContext (fst (started Version tracerStart m r W)) W))
                pp _ (handedWorld (fst (started Version tracerStart m r W)) W) Hm)
      as (res & W' & tr & Ec' & Hio).
    rewrite Ec in Ec'. inversion Ec'; subst.
    rewrite E. destruct res as [st|v]; unfold trace, prologue, epilogue; cbn [snd];
      rewrite !addEvents_app, FA, (ioEvents_add_no_events _ Hio); reflexivity.
  - unfold cycle. rewrite (serveHTTP_rejected Version tracerStart m w r next pp W Hacc).
    exact FA.
Qed.

(** ** The middleware as configured *)

Section Configured.

Variable Version : string.
Variable tracerStart :
  Trace.Tracer -> GoContext.Context -> string -> list Trace.SpanStartOption ->
  GoContext.Context * Trace.Span.
Variable NewHTTPServer : option Metric.Meter -> Semconv.HTTPServer.
Variables (G : Globals) (op : string).
Variables (next : HandlerFunc) (w : Http.ResponseWriter) (r : Http.Request).
Variables (pp : PathParams) (W : World).

Local Abbreviation middleware := (NewMiddleware Version tracerStart NewHTTPServer G op).
Local Abbreviation built := (middlewareHandler Version NewHTTPServer G op).

(** X1: the middleware built without options traces every request; its
    span is named by the operation, is started in the context extracted
    by the propagator that was the process-wide one when the middleware
    was built, asks for no new root, no link and no span kind, and comes
    from the tracer of the valid span of the inbound context, or else of
    the provider that is the process-wide one when the request is
    served. *)
Theorem X1_the_middleware_without_options :
  exists opts,
    starts (trace (run (middleware [] next w r pp) W))
    = [(if Trace.IsValid (Trace.spanContext (SpanFromContext (Http.Context r)))
        then newTracer Version (Trace.tracerProvider (SpanFromContext (Http.Context r)))
        else newTracer Version (GetTracerProvider (otel W)),
        Propagation.Extract (GetTextMapPropagator G) (Http.Context r) (Http.header r),
        op, opts)]
    /\ newRoot opts = false
    /\ links opts = []
    /\ spanKinds opts = [].
Proof.
  assert (Hacc : accepts (built []) r = true) by reflexivity.
  destruct (cycle_summary Version tracerStart (built []) w r next pp W Hacc)
    as (l & ctx & hres & Wh & _ & _ & _ & _ & _ & Hs & _).
  cbv zeta in Hs. exists (startOptions (built []) r).
  split; [exact Hs|].
  rewrite startOptions_eq.
  assert (Hpub : isPublic (built []) r = false) by reflexivity.
  rewrite Hpub.
  destruct (GoTime.IsZero (StartTimeFromContext (extracted (built []) r)));
    now repeat split.
Qed.

(** X2: no listed option enables the read or the write events: the handler
    built from listed options has both flags off, and no cycle of it ever
    calls [span.AddEvent], whatever the downstream handler reads or
    writes. *)
Theorem X2_listed_options_never_enable_span_events :
  forall opts : list Option,
    Forall listed opts ->
    readEvent (built opts) = false
    /\ writeEvent (built opts) = false
    /\ addEvents (trace (run (middleware opts next w r pp) W)) = [].
Proof.
  intros opts Hl.
  assert (Hall : Forall listed
                   ([ WithSpanOptions [Trace.WithSpanKind Trace.SpanKindServer];
                      WithSpanNameFormatter defaultHandlerFormatter ] ++ opts)).
  { repeat constructor. exact Hl. }
  assert (Hflags : readEvent (built opts) = false /\ writeEvent (built opts) = false).
  { rewrite middlewareHandler_fields. cbn [readEvent writeEvent].
    unfold optionsApplied.
    destruct (listed_all_keep _ Hall
                (mkConfig "" None None (GetTextMapPropagator G) [] false None false false
                   [] None None nilSpanNameFormatter None (GetMeterProvider G)))
      as (a1 & a2 & _).
    now rewrite a1, a2. }
  destruct Hflags as [Hr Hw]. split; [exact Hr|]. split; [exact Hw|].
  exact (cycle_without_span_events Version tracerStart (built opts) w r next pp W Hr Hw).
Qed.

(** X3: the tracer provider given last decides: with a provider, the
    handler's tracer is built from it, and every accepted cycle starts its
    span on that tracer, whatever spans the contexts carry and whatever
    the process-wide provider is; a [nil] provider given last, after
    listed options, leaves the handler without a tracer of its own. *)
Theorem X3_the_last_tracer_provider_decides :
  forall opts : list Option,
    (forall tp,
       tracer (built (opts ++ [WithTracerProvider (Some tp)]))
       = Some (newTracer Version tp)
       /\ (accepts (built (opts ++ [WithTracerProvider (Some tp)])) r = true ->
           exists ctx name o,
             starts (trace (run (middleware (opts ++ [WithTracerProvider (Some tp)])
                                   next w r pp) W))
             = [(newTracer Version tp, ctx, name, o)]))
    /\ (Forall listed opts ->
        tracer (built (opts ++ [WithTracerProvider None])) = None).
Proof.
  intros opts. split.
  - intros tp.
    assert (Ht : tracer (built (opts ++ [WithTracerProvider (Some tp)]))
                 = Some (newTracer Version tp)).
    { rewrite middlewareHandler_fields, optionsApplied_last. reflexivity. }
    split; [exact Ht|]. intros Hacc.
    destruct (cycle_summary Version tracerStart _ w r next pp W Hacc)
      as (l & ctx & hres & Wh & _ & _ & _ & _ & _ & Hs & _).
    cbv zeta in Hs. eexists _, _, _.
    etransitivity; [exact Hs|]. unfold chosenTracer. rewrite Ht. reflexivity.
  - intros Hl.
    rewrite middlewareHandler_fields, optionsApplied_last.
    cbn [tracer TracerProvider WithTracerProvider Tracer].
    assert (Hall : Forall listed
                     ([ WithSpanOptions [Trace.WithSpanKind Trace.SpanKindServer];
                        WithSpanNameFormatter defaultHandlerFormatter ] ++ opts)).
    { repeat constructor. exact Hl. }
    unfold optionsApplied.
    destruct (listed_all_keep _ Hall
                (mkConfig "" None None (GetTextMapPropagator G) [] false None false false
                   [] None None nilSpanNameFormatter None (GetMeterProvider G)))
      as (_ & _ & a3 & _).
    exact a3.
Qed.

(** X4: filters accumulate, in the order of their options: those added by
    [WithFilter] come after the ones already configured; and the
    middleware built from filters alone calls the downstream handler,
    and starts a span, exactly when every filter returns true on the
    request. *)
Theorem X4_filters_accumulate_in_order :
  (forall (pre : list Option) (fs : list Filter),
      filters (built (pre ++ map WithFilter fs)) = filters (built pre) ++ fs)
  /\ (forall fs : list Filter,
        filters (built (map WithFilter fs)) = fs
        /\ List.length
             (nexts (trace (run (middleware (map WithFilter fs) next w r pp) W)))
           = (if forallb (fun f => f r) fs then 1%nat else 0%nat)
        /\ List.length
             (starts (trace (run (middleware (map WithFilter fs) next w r pp) W)))
           = (if forallb (fun f => f r) fs then 1%nat else 0%nat)).
Proof.
  assert (Happ : forall pre fs,
             filters (built (pre ++ map WithFilter fs)) = filters (built pre) ++ fs).
  { intros pre fs. rewrite !middlewareHandler_fields. cbn [filters].
    unfold optionsApplied. rewrite app_assoc, applyOptions_app.
    apply Filters_of_WithFilter. }
  split; [exact Happ|]. intros fs.
  assert (Hfs : filters (built (map WithFilter fs)) = fs).
  { etransitivity; [exact (Happ [] fs)|reflexivity]. }
  split; [exact Hfs|].
  destruct (forallb (fun f => f r) fs) eqn:Hall.
  - assert (Hacc : accepts (built (map WithFilter fs)) r = true).
    { unfold accepts. now rewrite Hfs. }
    destruct (cycle_summary Version tracerStart _ w r next pp W Hacc)
      as (l & ctx & hres & Wh & _ & _ & _ & _ & _ & Hs & _ & Hn & _).
    cbv zeta in Hs, Hn.
    change (run (middleware (map WithFilter fs) next w r pp) W)
      with (run (serveHTTP Version tracerStart (built (map WithFilter fs)) w r next pp) W).
    now rewrite Hs, Hn.
  - assert (Hacc : accepts (built (map WithFilter fs)) r = false).
    { unfold accepts. now rewrite Hfs. }
    change (run (middleware (map WithFilter fs) next w r pp) W)
      with (run (serveHTTP Version tracerStart (built (map WithFilter fs)) w r next pp) W).
    rewrite (serveHTTP_rejected Version tracerStart _ w r next pp W Hacc).
    destruct (filterEvents_silent _
                (filterTrace_filterEvents (filters (built (map WithFilter fs))) 0 r))
      as (F1 & _ & _ & _ & F5).
    unfold trace. cbn [snd]. now rewrite F1, F5.
Qed.

(** X5: an option given last reaches the cycle: the span is named by the
    last formatter, applied to the operation and the request as received;
    the context is extracted by the last propagator; the recorded
    measurement names the last server name. *)
Theorem X5_the_last_option_reaches_the_cycle :
  forall opts : list Option,
    (forall fn,
       accepts (built (opts ++ [WithSpanNameFormatter fn])) r = true ->
       exists t ctx o,
         starts (trace (run (middleware (opts ++ [WithSpanNameFormatter fn])
                               next w r pp) W))
         = [(t, ctx, fn op r, o)])
    /\ (forall ps,
          accepts (built (opts ++ [WithPropagators ps])) r = true ->
          exists t name o,
            starts (trace (run (middleware (opts ++ [WithPropagators ps])
                                  next w r pp) W))
            = [(t, Propagation.Extract ps (Http.Context r) (Http.header r), name, o)])
    /\ (forall s,
          accepts (built (opts ++ [WithServerName s])) r = true ->
          result (run (middleware (opts ++ [WithServerName s]) next w r pp) W)
          = Normal tt ->
          exists ctx md,
            recorded (trace (run (middleware (opts ++ [WithServerName s])
                                    next w r pp) W))
            = [(ctx, md)]
            /\ Semconv.ServerName md = s).
Proof.
  intros opts. split; [|split].
  - intros fn Hacc.
    destruct (cycle_summary Version tracerStart _ w r next pp W Hacc)
      as (l & ctx & hres & Wh & _ & _ & _ & _ & _ & Hs & _).
    cbv zeta in Hs. eexists _, _, _.
    etransitivity; [exact Hs|].
    rewrite middlewareHandler_fields, optionsApplied_last. reflexivity.
  - intros ps Hacc.
    destruct (cycle_summary Version tracerStart _ w r next pp W Hacc)
      as (l & ctx & hres & Wh & _ & _ & _ & _ & _ & Hs & _).
    cbv zeta in Hs. eexists _, _, _.
    etransitivity; [exact Hs|].
    unfold extracted.
    rewrite middlewareHandler_fields, optionsApplied_last. reflexivity.
  - intros s Hacc Hret.
    destruct (cycle_summary Version tracerStart _ w r next pp W Hacc)
      as (l & ctx & hres & Wh & _ & _ & _ & _ & _ & _ & _ & _ & Hres).
    cbv zeta in Hres.
    change (run (middleware (opts ++ [WithServerName s]) next w r pp) W)
      with (run (serveHTTP Version tracerStart (built (opts ++ [WithServerName s]))
                   w r next pp) W) in *.
    destruct hres as [st|v].
    + destruct Hres as (_ & _ & Hrec & _).
      eexists _, _. split; [exact Hrec|].
      unfold cycleMetrics. cbn [Semconv.ServerName].
      rewrite middlewareHandler_fields, optionsApplied_last. reflexivity.
    + destruct Hres as (Hr & _). rewrite Hr in Hret. discriminate.
Qed.

(** X10: among listed options [WithPublicEndpoint] cannot be undone: when
    it is one of them the handler is a public endpoint, and every accepted
    cycle asks for a new root, whatever the other options are and whatever
    the request carries. *)
Theorem X10_public_endpoint_cannot_be_undone :
  forall opts : list Option,
    Forall listed opts ->
    In WithPublicEndpoint opts ->
    publicEndpoint (built opts) = true
    /\ (accepts (built opts) r = true ->
        exists t ctx name o,
          starts (trace (run (middleware opts next w r pp) W)) = [(t, ctx, name, o)]
          /\ newRoot o = true).
Proof.
  intros opts Hl Hin.
  assert (Hpub : publicEndpoint (built opts) = true).
  { rewrite middlewareHandler_fields. cbn [publicEndpoint]. unfold optionsApplied.
    apply listed_public_endpoint.
    - repeat constructor. exact Hl.
    - right. right. exact Hin. }
  split; [exact Hpub|]. intros Hacc.
  destruct (cycle_summary Version tracerStart _ w r next pp W Hacc)
    as (l & ctx & hres & Wh & _ & _ & _ & _ & _ & Hs & _).
  cbv zeta in Hs. eexists _, _, _, _. split; [exact Hs|].
  rewrite startOptions_eq.
  assert (Hp : isPublic (built opts) r = true) by (unfold isPublic; now rewrite Hpub).
  rewrite Hp.
  destruct (Trace.IsValid (SpanContextFromContext (extracted (built opts) r))
            && Trace.IsRemote (SpanContextFromContext (extracted (built opts) r)));
    destruct (GoTime.IsZero (StartTimeFromContext (extracted (built opts) r)));
    reflexivity.
Qed.


End Configured.

(** ** The further properties on the example middleware *)

Lemma X2_witness :
  Forall listed [WithPublicEndpoint; WithServerName "gateway"]
  /\ readEvent (middlewareHandler Example.version Example.httpServer Example.globals "/"
                  [WithPublicEndpoint; WithServerName "gateway"]) = false
  /\ addEvents
       (trace (run (NewMiddleware Example.version Example.sdkStart Example.httpServer
                      Example.globals "/" [WithPublicEndpoint; WithServerName "gateway"]
                      Example.okHandler (Http.frameworkWriter 0) Example.request [])
                 Example.world0))
     = [].
Proof.
  assert (H : Forall listed [WithPublicEndpoint; WithServerName "gateway"]).
  { constructor; [exact listed_WithPublicEndpoint|].
    constructor; [exact (listed_WithServerName "gateway")|constructor]. }
  split; [exact H|].
  destruct (X2_listed_options_never_enable_span_events
              Example.version Example.sdkStart Example.httpServer Example.globals "/"
              Example.okHandler (Http.frameworkWriter 0) Example.request [] Example.world0
              [WithPublicEndpoint; WithServerName "gateway"] H)
    as (Hr & _ & Ha).
  split; [exact Hr | exact Ha].
Defined.

Lemma X3_witness :
  accepts (middlewareHandler Example.version Example.httpServer Example.globals "/"
             ([WithPublicEndpoint] ++ [WithTracerProvider (Some (Trace.sdkTracerProvider 1))]))
    Example.request = true
  /\ Forall listed [WithPublicEndpoint]
  /\ (exists ctx name o,
        starts
          (trace (run (NewMiddleware Example.version Example.sdkStart Example.httpServer
                         Example.globals "/"
                         ([WithPublicEndpoint]
                          ++ [WithTracerProvider (Some (Trace.sdkTracerProvider 1))])
                         Example.okHandler (Http.frameworkWriter 0) Example.request [])
                    Example.world0))
        = [(newTracer Example.version (Trace.sdkTracerProvider 1), ctx, name, o)])
  /\ tracer (middlewareHandler Example.version Example.httpServer Example.globals "/"
               ([WithPublicEndpoint] ++ [WithTracerProvider None])) = None.
Proof.
  assert (H : Forall listed [WithPublicEndpoint]).
  { constructor; [exact listed_WithPublicEndpoint|constructor]. }
  split; [reflexivity|]. split; [exact H|].
  destruct (X3_the_last_tracer_provider_decides
              Example.version Example.sdkStart Example.httpServer Example.globals "/"
              Example.okHandler (Http.frameworkWriter 0) Example.request [] Example.world0
              [WithPublicEndpoint])
    as (Hsome & Hnone).
  split; [exact (proj2 (Hsome (Trace.sdkTracerProvider 1)) eq_refl) | exact (Hnone H)].
Defined.

Lemma X5_witness :
  accepts (middlewareHandler Example.version Example.httpServer Example.globals "/"
             ([WithServerName "first"] ++ [WithServerName "gateway"]))
    Example.request = true
  /\ result (run (NewMiddleware Example.version Example.sdkStart Example.httpServer
                    Example.globals "/"
                    ([WithServerName "first"] ++ [WithServerName "gateway"])
                    Example.okHandler (Http.frameworkWriter 0) Example.request [])
               Example.world0) = Normal tt
  /\ exists ctx md,
       recorded
         (trace (run (NewMiddleware Example.version Example.sdkStart Example.httpServer
                        Example.globals "/"
                        ([WithServerName "first"] ++ [WithServerName "gateway"])
                        Example.okHandler (Http.frameworkWriter 0) Example.request [])
                   Example.world0))
       = [(ctx, md)]
       /\ Semconv.ServerName md = "gateway".
Proof.
  split; [reflexivity|]. split; [reflexivity|].
  exact (proj2 (proj2
           (X5_the_last_option_reaches_the_cycle
              Example.version Example.sdkStart Example.httpServer Example.globals "/"
              Example.okHandler (Http.frameworkWriter 0) Example.request [] Example.world0
              [WithServerName "first"]))
           "gateway" eq_refl eq_refl).
Defined.

Lemma X6_witness :
  accepts Example.plain Example.request = true
  /\ bindsLabeler (fst (started Example.version Example.sdkStart Example.plain
                          Example.request Example.world0)) = false
  /\ exists r',
       nexts (trace (Example.serve Example.plain Example.request Example.okHandler))
       = [(Http.snoopWrap (Http.frameworkWriter 0), r', [])]
       /\ Http.URL r' = "/v1/hello"
       /\ Http.Body r' = Http.bodyWrapper (Http.streamBody 0)
       /\ Http.Context r'
          = ContextWithLabeler
              (fst (started Example.version Example.sdkStart Example.plain
                      Example.request Example.world0)) 0%nat.
Proof.
  split; [reflexivity|]. split; [reflexivity|].
  destruct (X6_what_the_downstream_handler_receives
              Example.version Example.sdkStart Example.plain (Http.frameworkWriter 0)
              Example.request Example.okHandler [] Example.world0 eq_refl)
    as (r' & Hn & _ & Hu & _ & Hb & _ & Hc & _).
  exists r'. split; [exact Hn|]. split; [exact Hu|]. split; [exact Hb|].
  exact (Hc eq_refl).
Defined.


Lemma X8_witness :
  accepts Example.filtered Example.timedRequest = false
  /\ accepts Example.plain Example.request = true
  /\ exists pre htr tail,
       trace (Example.serve Example.plain Example.request Example.panicHandler)
       = pre ++ htr ++ tail
       /\ forallb handlerEvent htr = true
       /\ List.length tail = 1%nat.
Proof.
  split; [reflexivity|]. split; [reflexivity|].
  destruct (X8_order_of_the_calls_of_a_cycle
              Example.version Example.sdkStart Example.plain (Http.frameworkWriter 0)
              Example.request Example.panicHandler [] Example.world0 eq_refl)
    as (t & ctx & name & opts & r' & htr & tail & Htr & Hh & _ & Hp).
  eexists _, htr, tail. split.
  - etransitivity; [exact Htr|]. rewrite app_assoc. reflexivity.
  - split; [exact Hh|]. rewrite (Hp "boom" eq_refl). reflexivity.
Defined.

Lemma X9_witness :
  accepts Example.public Example.request = true
  /\ isPublic Example.public Example.request = true
  /\ exists t name opts,
       starts (trace (Example.serve Example.public Example.request Example.okHandler))
       = [(t, extracted Example.public Example.request, name, opts)]
       /\ newRoot opts = true
       /\ links opts = [Trace.mkLink Example.remote].
Proof.
  split; [reflexivity|]. split; [reflexivity|].
  destruct (X9_new_root_always_link_only_if_valid_and_remote
              Example.version Example.sdkStart Example.public (Http.frameworkWriter 0)
              Example.request Example.okHandler [] Example.world0 eq_refl)
    as (t & name & opts & Hs & Hr & Hl).
  exists t, name, opts. split; [exact Hs|]. split; [exact Hr | exact Hl].
Defined.

Lemma X10_witness :
  Forall listed [WithPublicEndpoint; WithPublicEndpointFn (Some (fun _ => false))]
  /\ In WithPublicEndpoint [WithPublicEndpoint; WithPublicEndpointFn (Some (fun _ => false))]
  /\ accepts (middlewareHandler Example.version Example.httpServer Example.globals "/"
                [WithPublicEndpoint; WithPublicEndpointFn (Some (fun _ => false))])
       Example.request = true
  /\ exists t ctx name o,
       starts
         (trace (run (NewMiddleware Example.version Example.sdkStart Example.httpServer
                        Example.globals "/"
                        [WithPublicEndpoint; WithPublicEndpointFn (Some (fun _ => false))]
                        Example.okHandler (Http.frameworkWriter 0) Example.request [])
                   Example.world0))
       = [(t, ctx, name, o)]
       /\ newRoot o = true.
Proof.
  assert (H : Forall listed
                [WithPublicEndpoint; WithPublicEndpointFn (Some (fun _ => false))]).
  { constructor; [exact listed_WithPublicEndpoint|].
    constructor; [exact (listed_WithPublicEndpointFn (Some (fun _ => false)))|constructor]. }
  split; [exact H|]. split; [left; reflexivity|]. split; [reflexivity|].
  exact (proj2
           (X10_public_endpoint_cannot_be_undone
              Example.version Example.sdkStart Example.httpServer Example.globals "/"
              Example.okHandler (Http.frameworkWriter 0) Example.request [] Example.world0
              [WithPublicEndpoint; WithPublicEndpointFn (Some (fun _ => false))]
              H (or_introl eq_refl))
           eq_refl).
Defined.

Lemma X11_witness :
  accepts Example.public Example.request = true
  /\ result (Example.serve Example.public Example.request Example.okHandler) = Normal tt
  /\ metricAttributesFn Example.public = None
  /\ exists ctx md l,
       recorded (trace (Example.serve Example.public Example.request Example.okHandler))
       = [(ctx, md)]
       /\ Semconv.AdditionalAttributes (Semconv.Attributes md)
          = nth l (labelers (world (Example.serve Example.public Example.request
                                      Example.okHandler))) [].
Proof.
  split; [reflexivity|]. split; [reflexivity|]. split; [reflexivity|].
  destruct (X11_metric_attribute_function_and_its_absence
              Example.version Example.sdkStart Example.public (Http.frameworkWriter 0)
              Example.request Example.okHandler [] Example.world0 eq_refl eq_refl)
    as (ctx & md & l & Hrec & _ & _ & _ & Hnone).
  exists ctx, md, l. split; [exact Hrec | exact (Hnone eq_refl)].
Defined.
